(** * VirtualTryOnAPI: a verified model of [main.py]

    The client reads two image files, encodes them in base64, posts one
    JSON request and saves every returned prediction under a generated
    file name.  The development embeds [VirtualTryOnAPI.try_on] as a
    function in a small state-and-exception monad over the trace of
    external calls, together with the library routines whose results the
    properties depend on ([base64], [pathlib.PurePosixPath], [str]). *)

From Stdlib Require Import ZArith NArith List String Ascii Bool Lia.
From Stdlib Require Import DecimalString DecimalZ DecimalPos.
From Stdlib.Strings Require Import Byte.
Import ListNotations.

Local Open Scope list_scope.
Local Open Scope string_scope.

(** ** Python values *)

(** Python [bytes] are lists of bytes.  A Python [str] is represented by
    the bytes of its UTF-8 encoding, held in a Rocq [string]. *)
Definition bytes := list byte.

Inductive PyExc : Type :=
| FileNotFoundError (msg : string)
| Exception_ (msg : string)
| KeyError (key : string)
| TypeError
| AttributeError
| ValueError
| UnicodeDecodeError
| BinasciiError
| ExternalError (what : string).

(** The outcome of evaluating an expression: a value or a raised exception. *)
Inductive Res (A : Type) : Type :=
| Ok (a : A)
| Raise (e : PyExc).
Arguments Ok {A} a.
Arguments Raise {A} e.

Definition res_bind {A B} (r : Res A) (k : A -> Res B) : Res B :=
  match r with
  | Ok a => k a
  | Raise e => Raise e
  end.

(** [str(n)] for a Python [int]. *)
Definition str_int (z : Z) : string := NilZero.string_of_int (Z.to_int z).

(** ** base64 (the [base64] and [binascii] modules) *)
Module Base64.

Definition table_b2a_base64 : bytes :=
  list_byte_of_string
    "ABCDEFGHIJKLMNOPQRSTUVWXYZabcdefghijklmnopqrstuvwxyz0123456789+/".

Definition BASE64_PAD : byte := "="%byte.

(** Storing an [int] expression into an [unsigned char]. *)
Definition uchar (n : N) : byte :=
  match Byte.of_N (N.land n 255) with
  | Some b => b
  | None => x00
  end.

Definition b2a (n : N) : byte := nth (N.to_nat n) table_b2a_base64 BASE64_PAD.

Fixpoint index_of (c : byte) (tbl : bytes) : option N :=
  match tbl with
  | [] => None
  | d :: tbl' =>
      if Byte.eqb c d then Some 0%N
      else option_map N.succ (index_of c tbl')
  end.

(** [table_a2b_base64]: the sextet a character stands for, if any. *)
Definition a2b (c : byte) : option N := index_of c table_b2a_base64.

(** [binascii.b2a_base64(data, newline=False)]: three bytes give four
    characters; a last group of one or two bytes is padded with [=]. *)
Fixpoint b2a_base64 (data : bytes) : bytes :=
  match data with
  | [] => []
  | [x] =>
      let a := Byte.to_N x in
      [ b2a (N.shiftr a 2);
        b2a (N.shiftl (N.land a 3) 4);
        BASE64_PAD; BASE64_PAD ]
  | [x; y] =>
      let a := Byte.to_N x in
      let b := Byte.to_N y in
      [ b2a (N.shiftr a 2);
        b2a (N.lor (N.shiftl (N.land a 3) 4) (N.shiftr b 4));
        b2a (N.shiftl (N.land b 15) 2);
        BASE64_PAD ]
  | x :: y :: z :: rest =>
      let a := Byte.to_N x in
      let b := Byte.to_N y in
      let c := Byte.to_N z in
      b2a (N.shiftr a 2)
      :: b2a (N.lor (N.shiftl (N.land a 3) 4) (N.shiftr b 4))
      :: b2a (N.lor (N.shiftl (N.land b 15) 2) (N.shiftr c 6))
      :: b2a (N.land c 63)
      :: b2a_base64 rest
  end.

Definition b64encode (s : bytes) : bytes := b2a_base64 s.

(** The decoder of [binascii.a2b_base64] in its default, lenient mode:
    characters outside the alphabet are skipped, a complete pad sequence
    ends the input, and a dangling group is an error. *)
Record dstate : Type := mk_dstate {
  quad_pos : N;
  leftchar : N;
  pads : N;
  bin_data : bytes
}.

Definition dstate0 : dstate := mk_dstate 0 0 0 [].

Inductive dstep : Type :=
| Continue (st : dstate)
| Done (out : bytes).

Definition a2b_step (this_ch : byte) (st : dstate) : dstep :=
  if Byte.eqb this_ch BASE64_PAD then
    if (2 <=? quad_pos st)%N then
      let pads' := N.succ (pads st) in
      if (4 <=? quad_pos st + pads')%N then Done (bin_data st)
      else Continue (mk_dstate (quad_pos st) (leftchar st) pads' (bin_data st))
    else Continue st
  else
    match a2b this_ch with
    | None => Continue st
    | Some v =>
        match quad_pos st with
        | 0%N => Continue (mk_dstate 1 v 0 (bin_data st))
        | 1%N =>
            Continue (mk_dstate 2 (N.land v 15) 0
              (bin_data st
               ++ [uchar (N.lor (N.shiftl (leftchar st) 2) (N.shiftr v 4))])%list)
        | 2%N =>
            Continue (mk_dstate 3 (N.land v 3) 0
              (bin_data st
               ++ [uchar (N.lor (N.shiftl (leftchar st) 4) (N.shiftr v 2))])%list)
        | _ =>
            Continue (mk_dstate 0 0 0
              (bin_data st ++ [uchar (N.lor (N.shiftl (leftchar st) 6) v)])%list)
        end
    end.

Fixpoint a2b_loop (ascii_data : bytes) (st : dstate) : Res bytes :=
  match ascii_data with
  | [] =>
      if (quad_pos st =? 0)%N then Ok (bin_data st) else Raise BinasciiError
  | this_ch :: rest =>
      match a2b_step this_ch st with
      | Done out => Ok out
      | Continue st' => a2b_loop rest st'
      end
  end.

Definition a2b_base64 (data : bytes) : Res bytes := a2b_loop data dstate0.

Definition is_ascii (b : byte) : bool := (Byte.to_N b <? 128)%N.

(** [_bytes_from_decode_data] for a [str] argument: [s.encode('ascii')]. *)
Definition bytes_from_decode_data (s : string) : Res bytes :=
  let bs := list_byte_of_string s in
  if forallb is_ascii bs then Ok bs else Raise ValueError.

(** [base64.b64decode(s)] for a [str] argument. *)
Definition b64decode (s : string) : Res bytes :=
  res_bind (bytes_from_decode_data s) a2b_base64.

(** The sextets of a group of bytes, and the identities between them and
    the bytes that a decoder relies on; they are checked by running them
    on every pair of bytes. *)
Definition sx1 (a b : N) : N := N.lor (N.shiftl (N.land a 3) 4) (N.shiftr b 4).
Definition sx2 (b c : N) : N := N.lor (N.shiftl (N.land b 15) 2) (N.shiftr c 6).

Definition sextets_ok (a b : N) : bool :=
  ((N.shiftr a 2 <? 64) && (sx1 a b <? 64) && (sx2 a b <? 64)
  && (N.land a 63 <? 64)
  && (N.shiftl (N.land a 3) 4 <? 64) && (N.shiftl (N.land a 15) 2 <? 64)
  && (N.lor (N.shiftl (N.shiftr a 2) 2) (N.shiftr (sx1 a b) 4) =? a)
  && (N.land (sx1 a b) 15 =? N.shiftr b 4)
  && (N.lor (N.shiftl (N.shiftr a 4) 4) (N.shiftr (sx2 a b) 2) =? a)
  && (N.land (sx2 a b) 3 =? N.shiftr b 6)
  && (N.lor (N.shiftl (N.shiftr a 6) 6) (N.land a 63) =? a)
  && (N.lor (N.shiftl (N.shiftr a 2) 2) (N.shiftr (N.shiftl (N.land a 3) 4) 4) =? a)
  && (N.land (N.shiftl (N.land a 3) 4) 15 =? 0)
  && (N.lor (N.shiftl (N.shiftr a 4) 4) (N.shiftr (N.shiftl (N.land a 15) 2) 2) =? a))%N.

(** Whether the decoding table sends the character of sextet [n] back to [n]. *)
Definition a2b_inverts (n : N) : bool :=
  match a2b (b2a n) with
  | Some m => (m =? n)%N
  | None => false
  end.

(** Whether the character is one of the 64 of the alphabet or the pad. *)
Definition in_alphabet (c : byte) : bool :=
  existsb (Byte.eqb c) table_b2a_base64 || Byte.eqb c BASE64_PAD.

End Base64.

(** ** [bytes.decode('utf-8')] *)
Module Utf8.

Definition between (lo n hi : N) : bool := ((lo <=? n) && (n <=? hi))%N.

Definition cont (b : byte) : bool := between 128 (Byte.to_N b) 191.

(** Well-formed UTF-8 byte sequences (Unicode, table 3-7). *)
Fixpoint valid (bs : bytes) : bool :=
  match bs with
  | [] => true
  | b0 :: r0 =>
      let n0 := Byte.to_N b0 in
      if (n0 <? 128)%N then valid r0
      else
        match r0 with
        | [] => false
        | b1 :: r1 =>
            let n1 := Byte.to_N b1 in
            if between 194 n0 223 then cont b1 && valid r1
            else
              match r1 with
              | [] => false
              | b2 :: r2 =>
                  if between 224 n0 239 then
                    (if (n0 =? 224)%N then between 160 n1 191
                     else if (n0 =? 237)%N then between 128 n1 159
                     else cont b1)
                    && cont b2 && valid r2
                  else
                    match r2 with
                    | [] => false
                    | b3 :: r3 =>
                        if between 240 n0 244 then
                          (if (n0 =? 240)%N then between 144 n1 191
                           else if (n0 =? 244)%N then between 128 n1 143
                           else cont b1)
                          && cont b2 && cont b3 && valid r3
                        else false
                    end
              end
        end
  end.

Definition decode (bs : bytes) : Res string :=
  if valid bs then Ok (string_of_list_byte bs) else Raise UnicodeDecodeError.

End Utf8.

(** ** [pathlib.PurePosixPath] *)
Module PurePath.

Definition sep : ascii := "/"%char.

(** [s.split('/')] *)
Fixpoint split (s : string) : list string :=
  match s with
  | EmptyString => [EmptyString]
  | String c s' =>
      if Ascii.eqb c sep then EmptyString :: split s'
      else
        match split s' with
        | [] => [String c EmptyString]
        | w :: ws => String c w :: ws
        end
  end.

(** [s.lstrip('/')] *)
Fixpoint lstrip (s : string) : string :=
  match s with
  | EmptyString => EmptyString
  | String c s' => if Ascii.eqb c sep then lstrip s' else s
  end.

(** ['/'.join(parts)] *)
Fixpoint join (parts : list string) : string :=
  match parts with
  | [] => EmptyString
  | [p] => p
  | p :: ps => p ++ String sep (join ps)
  end.

(** A parsed path: its root (empty, [/] or [//]) and its components. *)
Record t : Type := mk { root : string; parts : list string }.

Definition splitroot (part : string) : string * string :=
  match part with
  | String c _ =>
      if Ascii.eqb c sep then
        let stripped := lstrip part in
        if (String.length part - String.length stripped =? 2)%nat
        then ("//", stripped) else ("/", stripped)
      else ("", part)
  | EmptyString => ("", part)
  end.

Definition keep_part (x : string) : bool :=
  negb (String.eqb x "") && negb (String.eqb x ".").

(** [PurePosixPath(s)] *)
Definition Path (s : string) : t :=
  let '(rt, rel) := splitroot s in
  mk rt (filter keep_part (split rel)).

(** [p / key] for a [str] key *)
Definition truediv (p : t) (key : string) : t :=
  let q := Path key in
  if String.eqb (root q) "" then mk (root p) (parts p ++ parts q)%list else q.

(** [str(p)] *)
Definition str (p : t) : string :=
  let s := root p ++ join (parts p) in
  if String.eqb s "" then "." else s.

(** [p.name] *)
Definition name (p : t) : string := last (parts p) "".

(** [s.rfind(c)], [None] standing for [-1] *)
Fixpoint rfind (c : ascii) (s : string) : option nat :=
  match s with
  | EmptyString => None
  | String d s' =>
      match rfind c s' with
      | Some i => Some (S i)
      | None => if Ascii.eqb d c then Some 0%nat else None
      end
  end.

(** [p.stem] *)
Definition stem (p : t) : string :=
  let nm := name p in
  match rfind "."%char nm with
  | Some i =>
      if ((0 <? i) && (i <? String.length nm - 1))%nat
      then substring 0 i nm else nm
  | None => nm
  end.

(** [c in s] *)
Fixpoint contains (c : ascii) (s : string) : bool :=
  match s with
  | EmptyString => false
  | String d s' => Ascii.eqb d c || contains c s'
  end.

(** A string that holds no separator. *)
Definition no_sep (s : string) : Prop := contains sep s = false.

(** Whether the string starts with a separator. *)
Definition starts_with_sep (s : string) : bool :=
  match s with
  | String c _ => Ascii.eqb c sep
  | EmptyString => false
  end.

(** What [join] puts before the last of the parts. *)
Fixpoint join_prefix (parts : list string) : string :=
  match parts with
  | [] => EmptyString
  | p :: ps => p ++ String sep (join_prefix ps)
  end.

End PurePath.

(** ** JSON documents and the Python operations applied to them *)

#[local] Set Warnings "-register-all".
Inductive json : Type :=
| JNull
| JBool (b : bool)
| JInt (z : Z)
| JStr (s : string)
| JArr (items : list json)
| JObj (fields : list (string * json)).

(** A [dict] with string keys, in insertion order. *)
Definition dict := list (string * json).

Fixpoint dict_get (k : string) (d : dict) : option json :=
  match d with
  | [] => None
  | (k', v) :: d' => if String.eqb k k' then Some v else dict_get k d'
  end.

(** [d[k] = v]: an existing key keeps its position. *)
Fixpoint dict_set (k : string) (v : json) (d : dict) : dict :=
  match d with
  | [] => [(k, v)]
  | (k', v') :: d' =>
      if String.eqb k k' then (k, v) :: d' else (k', v') :: dict_set k v d'
  end.

(** [k in d] *)
Definition dict_has (k : string) (d : dict) : bool :=
  match dict_get k d with Some _ => true | None => false end.

(** [obj[k]] *)
Definition py_getitem (obj : json) (k : string) : Res json :=
  match obj with
  | JObj d =>
      match dict_get k d with
      | Some v => Ok v
      | None => Raise (KeyError k)
      end
  | _ => Raise TypeError
  end.

(** [obj[k] = v] *)
Definition py_setitem (obj : json) (k : string) (v : json) : Res json :=
  match obj with
  | JObj d => Ok (JObj (dict_set k v d))
  | _ => Raise TypeError
  end.

(** [obj[p1]...[pn][k] = v]; the inner dicts are shared with [obj], so the
    assignment is seen through it. *)
Fixpoint py_setitem_at (obj : json) (path : list string) (k : string) (v : json)
  : Res json :=
  match path with
  | [] => py_setitem obj k v
  | p :: path' =>
      res_bind (py_getitem obj p) (fun inner =>
      res_bind (py_setitem_at inner path' k v) (fun inner' =>
      py_setitem obj p inner'))
  end.

(** [obj.get(k, default)] *)
Definition py_get (obj : json) (k : string) (default : json) : Res json :=
  match obj with
  | JObj d =>
      match dict_get k d with
      | Some v => Ok v
      | None => Ok default
      end
  | _ => Raise AttributeError
  end.

Definition is_continuation (s : string) : bool :=
  match s with
  | String c _ => Utf8.between 128 (N_of_ascii c) 191
  | EmptyString => false
  end.

(** The characters of a [str], one string per code point. *)
Fixpoint code_points (s : string) : list string :=
  match s with
  | EmptyString => []
  | String c s' =>
      if is_continuation s' then
        match code_points s' with
        | w :: ws => String c w :: ws
        | [] => [String c EmptyString]
        end
      else String c EmptyString :: code_points s'
  end.

(** The items [for x in obj] runs through. *)
Definition py_iter (obj : json) : Res (list json) :=
  match obj with
  | JArr items => Ok items
  | JObj d => Ok (map (fun kv => JStr (fst kv)) d)
  | JStr s => Ok (map JStr (code_points s))
  | _ => Raise TypeError
  end.

(** [obj == s] for a string literal [s] *)
Definition py_eq_str (obj : json) (s : string) : bool :=
  match obj with
  | JStr s' => String.eqb s' s
  | _ => false
  end.

(** [base64.b64decode(obj)] *)
Definition py_b64decode (obj : json) : Res bytes :=
  match obj with
  | JStr s => Base64.b64decode s
  | _ => Raise TypeError
  end.

(** Looking a path of keys up in a document. *)
Fixpoint json_lookup (path : list string) (obj : json) : option json :=
  match path with
  | [] => Some obj
  | k :: path' =>
      match obj with
      | JObj d =>
          match dict_get k d with
          | Some v => json_lookup path' v
          | None => None
          end
      | _ => None
      end
  end.

(** Whether the key [k] occurs in some object of the document. *)
Fixpoint mentions_key (k : string) (j : json) : bool :=
  match j with
  | JArr items => existsb (mentions_key k) items
  | JObj d =>
      (fix go (d : list (string * json)) : bool :=
         match d with
         | [] => false
         | (k', v) :: d' => String.eqb k' k || mentions_key k v || go d'
         end) d
  | _ => false
  end.

(** ** The world around the client *)

(** Credentials as [google.auth.default] hands them out. *)
Inductive Credentials : Type :=
| AmbientCredentials (account : string).

(** The [requests.Response] of the POST: [json_] is what [response.json()]
    gives. *)
Record Response : Type := mk_response {
  status_code : Z;
  text : string;
  json_ : Res json
}.

(** A [PIL.Image], known by the bytes it was opened from. *)
Record Image : Type := mk_image { img_data : bytes }.

(** The calls of [try_on] that act on the world, in program order. *)
Inductive Event : Type :=
| EvPrint (msg : string)
| EvPost (url : string) (body : json)
| EvMakedirs (path : string)
| EvSave (path : string) (img : Image).

Definition Trace := list Event.

(** What the file system, the network and the image library answer.  Every
    answer may depend on what the program has done so far. *)
Record Env : Type := mk_env {
  google_auth_default : Trace -> Res (Credentials * option string);
  os_path_exists : Trace -> string -> bool;
  open_rb_read : Trace -> string -> Res bytes;
  session_post : Trace -> Credentials -> string -> json -> Res Response;
  os_makedirs : Trace -> string -> Res unit;
  Image_open : bytes -> Res Image;
  Image_save : Trace -> Image -> string -> Res unit
}.

(** Computations: the trace so far goes in, a result or an exception and
    the extended trace come out. *)
Definition M (A : Type) : Type := Trace -> Res A * Trace.

Definition ret {A} (a : A) : M A := fun h => (Ok a, h).

Definition raise {A} (e : PyExc) : M A := fun h => (Raise e, h).

Definition bind {A B} (m : M A) (k : A -> M B) : M B :=
  fun h =>
    match m h with
    | (Ok a, h') => k a h'
    | (Raise e, h') => (Raise e, h')
    end.

Definition lift {A} (r : Res A) : M A := fun h => (r, h).

(** A call that only asks the world something. *)
Definition ask {A} (f : Trace -> A) : M A := fun h => (Ok (f h), h).

(** A call that acts on the world: it is recorded, then answered. *)
Definition act {A} (ev : Event) (f : Trace -> Res A) : M A :=
  fun h => (f (h ++ [ev])%list, (h ++ [ev])%list).

Definition print (msg : string) : M unit := act (EvPrint msg) (fun _ => Ok tt).

Declare Scope py_scope.
Delimit Scope py_scope with py.
Notation "x <- m ;; k" := (bind m (fun x => k))
  (at level 61, m at next level, right associativity) : py_scope.
Notation "m ;; k" := (bind m (fun _ => k))
  (at level 61, right associativity) : py_scope.
Local Open Scope py_scope.

(** ** The client *)

Record VirtualTryOnAPI : Type := mk_api {
  credentials : Credentials;
  project_id : option string;
  location : string;
  model_id : string;
  endpoint : string
}.

(** [f"{project_id}"] *)
Definition str_opt (o : option string) : string :=
  match o with
  | Some s => s
  | None => "None"
  end.

Definition make_endpoint (loc : string) (project : option string) (model : string)
  : string :=
  "https://" ++ loc ++ "-aiplatform.googleapis.com/v1/projects/"
  ++ str_opt project ++ "/locations/" ++ loc
  ++ "/publishers/google/models/" ++ model ++ ":predict".

(** The arguments of [try_on]. *)
Record TryOnArgs : Type := mk_args {
  person_image_path : string;
  product_image_path : string;
  output_dir : string;
  sample_count : Z;
  base_steps : Z;
  add_watermark : bool;
  person_generation : string;
  safety_setting : string;
  seed : option Z;
  output_mime_type : string;
  compression_quality : option Z
}.

(** The call with every optional argument left at its default. *)
Definition default_args (person product : string) : TryOnArgs :=
  mk_args person product "./output" 1 32 false "allow_all" "block_only_high"
    None "image/png" None.

(** [o is not None] *)
Definition is_some {A} (o : option A) : bool :=
  match o with
  | Some _ => true
  | None => false
  end.

(** An [Optional[int]] as a JSON value. *)
Definition py_int (o : option Z) : json :=
  match o with
  | Some z => JInt z
  | None => JNull
  end.

(** Truth value of an [Optional[int]]. *)
Definition truthy (o : option Z) : bool :=
  match o with
  | Some z => negb (z =? 0)%Z
  | None => false
  end.

(** Lines 93-118: the request body and its two optional keys. *)
Definition request_body (a : TryOnArgs) (person_base64 product_base64 : string)
  : Res json :=
  let body0 :=
    JObj [
      ("instances", JArr [
        JObj [
          ("personImage",
            JObj [("image", JObj [("bytesBase64Encoded", JStr person_base64)])]);
          ("productImages", JArr [
            JObj [("image", JObj [("bytesBase64Encoded", JStr product_base64)])]])
        ]]);
      ("parameters", JObj [
        ("sampleCount", JInt (sample_count a));
        ("baseSteps", JInt (base_steps a));
        ("addWatermark", JBool (add_watermark a));
        ("personGeneration", JStr (person_generation a));
        ("safetySetting", JStr (safety_setting a));
        ("outputOptions", JObj [("mimeType", JStr (output_mime_type a))])
      ])
    ] in
  res_bind
    (if is_some (seed a)
     then py_setitem_at body0 ["parameters"] "seed" (py_int (seed a))
     else Ok body0) (fun body1 =>
  if truthy (compression_quality a)
     && String.eqb (output_mime_type a) "image/jpeg"
  then py_setitem_at body1 ["parameters"; "outputOptions"]
         "compressionQuality" (py_int (compression_quality a))
  else Ok body1).

(** Line 121: the message printed before the request. *)
Definition progress_message (a : TryOnArgs) : string :=
  "Virtual Try-On実行中... (画像数: " ++ str_int (sample_count a)
  ++ ", ステップ数: " ++ str_int (base_steps a) ++ ")".

(** Line 129: the message of the exception for a status other than 200. *)
Definition api_error_message (response : Response) : string :=
  "APIエラー: " ++ str_int (status_code response) ++ " - " ++ text response.

(** Line 142 *)
Definition ext_of (mime : json) : string :=
  if py_eq_str mime "image/png" then ".png" else ".jpg".

(** Lines 143-144, as a file name and as the path it is saved at. *)
Definition filename (a : TryOnArgs) (i : nat) (ext : string) : string :=
  let timestamp :=
    PurePath.stem (PurePath.Path (person_image_path a)) ++ "_"
    ++ PurePath.stem (PurePath.Path (product_image_path a)) in
  "vton_" ++ timestamp ++ "_" ++ str_int (Z.of_nat i) ++ ext.

Definition filepath (a : TryOnArgs) (i : nat) (ext : string) : PurePath.t :=
  PurePath.truediv (PurePath.Path (output_dir a)) (filename a i ext).

Section Client.

Variable E : Env.

(** [VirtualTryOnAPI.__init__] *)
Definition init (loc : string) : M VirtualTryOnAPI :=
  cp <- (fun h => (google_auth_default E h, h)) ;;
  print ("使用中のプロジェクトID: " ++ str_opt (snd cp)) ;;
  let model := "virtual-try-on-preview-08-04" in
  ret (mk_api (fst cp) (snd cp) loc model (make_endpoint loc (snd cp) model)).

(** Lines 85-87 *)
Definition encode_image (path : string) : M string :=
  data <- (fun h => (open_rb_read E h path, h)) ;;
  lift (Utf8.decode (Base64.b64encode data)).

(** Lines 137-149: one round of the loop. *)
Definition save_prediction (a : TryOnArgs) (i : nat) (prediction : json)
  : M string :=
  b64 <- lift (py_getitem prediction "bytesBase64Encoded") ;;
  data <- lift (py_b64decode b64) ;;
  img <- lift (Image_open E data) ;;
  mime <- lift (py_get prediction "mimeType" JNull) ;;
  let path := PurePath.str (filepath a i (ext_of mime)) in
  act (EvSave path img) (fun h => Image_save E h img path) ;;
  print ("✅ 画像を保存: " ++ path) ;;
  ret path.

(** Lines 136-151: the loop over [enumerate(...)], [saved_paths] being
    the paths appended so far. *)
Fixpoint save_loop (a : TryOnArgs) (i : nat) (predictions : list json)
    (saved_paths : list string) : M (list string) :=
  match predictions with
  | [] => ret saved_paths
  | prediction :: rest =>
      path <- save_prediction a i prediction ;;
      save_loop a (S i) rest (saved_paths ++ [path])%list
  end.

(** Lines 128-151: what is done with the response of the POST. *)
Definition handle_response (a : TryOnArgs) (response : Response)
  : M (list string) :=
  if negb (status_code response =? 200)%Z then
    raise (Exception_ (api_error_message response))
  else
  result <- lift (json_ response) ;;
  act (EvMakedirs (output_dir a)) (fun h => os_makedirs E h (output_dir a)) ;;
  predictions <- lift (py_get result "predictions" (JArr [])) ;;
  items <- lift (py_iter predictions) ;;
  save_loop a 0 items [].

(** [VirtualTryOnAPI.try_on] *)
Definition try_on (self : VirtualTryOnAPI) (a : TryOnArgs) : M (list string) :=
  person_exists <- ask (fun h => os_path_exists E h (person_image_path a)) ;;
  if negb person_exists then
    raise (FileNotFoundError
             ("人物画像が見つかりません: " ++ person_image_path a))
  else
  product_exists <- ask (fun h => os_path_exists E h (product_image_path a)) ;;
  if negb product_exists then
    raise (FileNotFoundError
             ("商品画像が見つかりません: " ++ product_image_path a))
  else
  person_base64 <- encode_image (person_image_path a) ;;
  product_base64 <- encode_image (product_image_path a) ;;
  body <- lift (request_body a person_base64 product_base64) ;;
  print (progress_message a) ;;
  response <- act (EvPost (endpoint self) body)
                (fun h => session_post E h (credentials self) (endpoint self) body) ;;
  handle_response a response.

End Client.

(** ** Reading a trace *)

(** The requests a trace posts, in order. *)
Fixpoint posts (t : Trace) : list (string * json) :=
  match t with
  | [] => []
  | EvPost url body :: t' => (url, body) :: posts t'
  | _ :: t' => posts t'
  end.

(** The directories a trace creates. *)
Fixpoint made_dirs (t : Trace) : list string :=
  match t with
  | [] => []
  | EvMakedirs d :: t' => d :: made_dirs t'
  | _ :: t' => made_dirs t'
  end.

(** The files a trace saves. *)
Fixpoint saved_files (t : Trace) : list string :=
  match t with
  | [] => []
  | EvSave path _ :: t' => path :: saved_files t'
  | _ :: t' => saved_files t'
  end.

(** The text [encode_image] builds from the bytes of a file. *)
Definition base64_text (data : bytes) : string :=
  string_of_list_byte (Base64.b64encode data).

(** The call got as far as a response: both files were there and read,
    the request [body] was posted and [response] came back, [h1] being the
    trace at that point. *)
Definition answered (E : Env) (self : VirtualTryOnAPI) (a : TryOnArgs)
    (h : Trace) (body : json) (response : Response) (h1 : Trace) : Prop :=
  exists d1 d2,
    os_path_exists E h (person_image_path a) = true
    /\ os_path_exists E h (product_image_path a) = true
    /\ open_rb_read E h (person_image_path a) = Ok d1
    /\ open_rb_read E h (product_image_path a) = Ok d2
    /\ request_body a (base64_text d1) (base64_text d2) = Ok body
    /\ h1 = (h ++ [EvPrint (progress_message a); EvPost (endpoint self) body])%list
    /\ session_post E h1 (credentials self) (endpoint self) body = Ok response.

(** Events of the saving loop: saves and their messages. *)
Definition save_or_print (ev : Event) : Prop :=
  match ev with
  | EvSave _ _ | EvPrint _ => True
  | _ => False
  end.

(** ** Reading a response *)

(** Whether the prediction reports the MIME type ["image/png"]. *)
Definition reports_png (prediction : json) : bool :=
  match prediction with
  | JObj d =>
      match dict_get "mimeType" d with
      | Some v => py_eq_str v "image/png"
      | None => false
      end
  | _ => false
  end.

(** The extension the MIME type of a prediction calls for. *)
Definition extension_for (prediction : json) : string :=
  if reports_png prediction then ".png" else ".jpg".

(** The path prediction [i] is saved at. *)
Definition path_for (a : TryOnArgs) (i : nat) (prediction : json) : string :=
  PurePath.str (filepath a i (extension_for prediction)).

(** The paths of the predictions numbered from [i] on. *)
Fixpoint paths_from (a : TryOnArgs) (i : nat) (predictions : list json)
  : list string :=
  match predictions with
  | [] => []
  | p :: rest => path_for a i p :: paths_from a (S i) rest
  end.



(** ** A small world to run the client in *)

Definition dquote : string := String (ascii_of_nat 34) EmptyString.

Definition demo_person : bytes := list_byte_of_string "person-image".
Definition demo_product : bytes := list_byte_of_string "dress-image".

(** Two input files exist, every write succeeds, every byte string opens as
    an image, and the server answers [resp] to whatever is posted. *)
Definition demo_env (resp : Res Response) : Env :=
  mk_env
    (fun _ => Ok (AmbientCredentials "demo", Some "demo-project"))
    (fun _ p => String.eqb p "./images/person.png"
                || String.eqb p "./images/dress.png")
    (fun _ p =>
       if String.eqb p "./images/person.png" then Ok demo_person
       else if String.eqb p "./images/dress.png" then Ok demo_product
       else Raise (ExternalError "open"))
    (fun _ _ _ _ => resp)
    (fun _ _ => Ok tt)
    (fun data => Ok (mk_image data))
    (fun _ _ _ => Ok tt).

Definition demo_api : VirtualTryOnAPI :=
  let model := "virtual-try-on-preview-08-04" in
  mk_api (AmbientCredentials "demo") (Some "demo-project") "us-central1" model
    (make_endpoint "us-central1" (Some "demo-project") model).

(** The call of the [__main__] block. *)
Definition main_args : TryOnArgs :=
  mk_args "./images/person.png" "./images/dress.png" "./results"
    1 32 false "allow_all" "block_only_high" (Some 42%Z) "image/png" None.

Definition demo_prediction (mime : string) : json :=
  JObj [("bytesBase64Encoded", JStr "aGVsbG8="); ("mimeType", JStr mime)].

Definition demo_ok_response (predictions : list json) : Res Response :=
  Ok (mk_response 200 "" (Ok (JObj [("predictions", JArr predictions)]))).

(** The same call asking for JPEG output of a given quality. *)
Definition jpeg_args (quality : option Z) (sd : option Z) : TryOnArgs :=
  mk_args "./images/person.png" "./images/dress.png" "./results"
    1 32 false "allow_all" "block_only_high" sd "image/jpeg" quality.

(** The same call asking for PNG output, a quality being given all the same. *)
Definition png_args (quality : option Z) : TryOnArgs :=
  mk_args "./images/person.png" "./images/dress.png" "./results"
    1 32 false "allow_all" "block_only_high" None "image/png" quality.

(** A call whose person image is not there. *)
Definition missing_person_args : TryOnArgs :=
  default_args "./images/nobody.png" "./images/dress.png".

(** A call whose product image is not there. *)
Definition missing_product_args : TryOnArgs :=
  default_args "./images/person.png" "./images/nothing.png".

(** A call asking for no image and a negative number of steps. *)
Definition zero_count_args : TryOnArgs :=
  mk_args "./images/person.png" "./images/dress.png" "./results"
    0 (-5) false "allow_all" "block_only_high" None "image/png" None.

Definition denied_text : string :=
  "{" ++ dquote ++ "error" ++ dquote ++ ":" ++ dquote ++ "denied" ++ dquote ++ "}".

Definition denied_response : Response :=
  mk_response 403 denied_text
    (Ok (JObj [("error", JStr "denied")])).

(** The request body a call sends in the small world. *)
Definition demo_body (a : TryOnArgs) : json :=
  match request_body a (base64_text demo_person) (base64_text demo_product) with
  | Ok body => body
  | Raise _ => JNull
  end.

(** The trace of a call in the small world once it has posted. *)
Definition demo_sent (a : TryOnArgs) : Trace :=
  [EvPrint (progress_message a); EvPost (endpoint demo_api) (demo_body a)].

(** The small world with an output directory that cannot be created. *)
Definition locked_env (resp : Res Response) : Env :=
  let E := demo_env resp in
  mk_env (google_auth_default E) (os_path_exists E) (open_rb_read E)
    (session_post E)
    (fun _ _ => Raise (ExternalError "PermissionError"))
    (Image_open E) (Image_save E).


(** A 200 response whose JSON body is the empty array. *)
Definition array_response : Response := mk_response 200 "[]" (Ok (JArr [])).

(** A 200 response whose JSON body is an object without predictions. *)
Definition bare_response : Response := mk_response 200 "{}" (Ok (JObj [])).

(** A 200 response with the given predictions. *)
Definition ok_response (predictions : list json) : Response :=
  mk_response 200 "" (Ok (JObj [("predictions", JArr predictions)])).

(** Runs of the small world without predictions. *)
Definition demo_run (a : TryOnArgs) : Res (list string) * Trace :=
  try_on (demo_env (demo_ok_response [])) demo_api a [].

(** The numbers below [k], to run a check on each of them. *)
Definition below (k : nat) : list N := map N.of_nat (seq 0 k).

(** ** The [__main__] block and further readings of a run *)

(** Lines 157-171: the script run as a program. *)
Definition main (E : Env) : M unit :=
  api <- init E "us-central1" ;;
  results <- try_on E api main_args ;;
  print "生成完了しました".

(** The lines a trace prints. *)
Fixpoint printed (t : Trace) : list string :=
  match t with
  | [] => []
  | EvPrint msg :: t' => msg :: printed t'
  | _ :: t' => printed t'
  end.

(** Line 149: the line printed for a saved file. *)
Definition saved_message (path : string) : string := "✅ 画像を保存: " ++ path.

(** The call got as far as posting [body]: both files were there and
    read; [h1] is the trace once the request has gone out. *)
Definition reaches_post (E : Env) (self : VirtualTryOnAPI) (a : TryOnArgs)
    (h : Trace) (body : json) (h1 : Trace) : Prop :=
  exists d1 d2,
    os_path_exists E h (person_image_path a) = true
    /\ os_path_exists E h (product_image_path a) = true
    /\ open_rb_read E h (person_image_path a) = Ok d1
    /\ open_rb_read E h (product_image_path a) = Ok d2
    /\ request_body a (base64_text d1) (base64_text d2) = Ok body
    /\ h1 = (h ++ [EvPrint (progress_message a); EvPost (endpoint self) body])%list.

(** A step into a document: a key of an object or an index of an array. *)
Inductive selector : Type :=
| Key (k : string)
| Idx (n : nat).

Fixpoint json_at (path : list selector) (obj : json) : option json :=
  match path with
  | [] => Some obj
  | Key k :: path' =>
      match obj with
      | JObj d =>
          match dict_get k d with
          | Some v => json_at path' v
          | None => None
          end
      | _ => None
      end
  | Idx n :: path' =>
      match obj with
      | JArr items =>
          match nth_error items n with
          | Some v => json_at path' v
          | None => None
          end
      | _ => None
      end
  end.

(** [len(obj)] of an array. *)
Definition json_len (obj : json) : option nat :=
  match obj with
  | JArr items => Some (List.length items)
  | _ => None
  end.

(** A prediction on which a round of the loop raises [e] before it saves:
    the image is missing, is no base64 text, or does not open. *)
Definition undecodable (E : Env) (prediction : json) (e : PyExc) : Prop :=
  py_getitem prediction "bytesBase64Encoded" = Raise e
  \/ (exists b64,
        py_getitem prediction "bytesBase64Encoded" = Ok b64
        /\ py_b64decode b64 = Raise e)
  \/ (exists b64 data,
        py_getitem prediction "bytesBase64Encoded" = Ok b64
        /\ py_b64decode b64 = Ok data
        /\ Image_open E data = Raise e).

(** A world given by what each external call answers, every path existing. *)
Definition fixed_env (auth : Res (Credentials * option string))
    (read : string -> Res bytes) (post : Res Response) (mkdirs : Res unit)
    (open_image : bytes -> Res Image) (save : Res unit) : Env :=
  mk_env (fun _ => auth) (fun _ _ => true) (fun _ => read)
    (fun _ _ _ _ => post) (fun _ _ => mkdirs) open_image (fun _ _ _ => save).

Definition demo_auth : Res (Credentials * option string) :=
  Ok (AmbientCredentials "demo", Some "demo-project").

Definition demo_read (path : string) : Res bytes :=
  if String.eqb path "./images/person.png" then Ok demo_person
  else if String.eqb path "./images/dress.png" then Ok demo_product
  else Raise (ExternalError "IsADirectoryError").

(** Whether iterating over the value yields nothing although it is no list. *)
Definition empty_iterable (v : json) : bool :=
  match v with
  | JStr "" => true
  | JObj [] => true
  | _ => false
  end.

(** Where the two image payloads sit in a request body. *)
Definition person_payload : list selector :=
  [Key "instances"; Idx 0; Key "personImage"; Key "image"; Key "bytesBase64Encoded"].

Definition product_payload : list selector :=
  [Key "instances"; Idx 0; Key "productImages"; Idx 0; Key "image";
   Key "bytesBase64Encoded"].

(** A call with values outside those the docstring lists. *)
Definition odd_args : TryOnArgs :=
  mk_args "./images/person.png" "./images/dress.png" "./results"
    1 32 true "anyone" "" None "image/gif" (Some 50%Z).

(** The call of the [__main__] block with other spellings of its paths. *)
Definition respelled_args (person product out : string) : TryOnArgs :=
  mk_args person product out
    1 32 false "allow_all" "block_only_high" (Some 42%Z) "image/png" None.

(** The URL of the prediction endpoint for a region and a project. *)
Definition regional_endpoint (loc : string) (project : option string) : string :=
  "https://" ++ loc ++ "-aiplatform.googleapis.com/v1/projects/"
  ++ str_opt project ++ "/locations/" ++ loc
  ++ "/publishers/google/models/virtual-try-on-preview-08-04:predict".

(** Line 171: the last line the script prints. *)
Definition completion_line : string := "生成完了しました".

(** A line of the saving loop. *)
Definition loop_line (msg : string) : Prop := exists path, msg = saved_message path.

(** The directory part of every path a call saves at. *)
Definition save_dir (a : TryOnArgs) : string :=
  PurePath.root (PurePath.Path (output_dir a))
  ++ PurePath.join_prefix (PurePath.parts (PurePath.Path (output_dir a))).

(** Lines 138-139 for one prediction: the image the loop opens, or the
    exception raised on the way to it. *)
Definition prediction_image (E : Env) (prediction : json) : Res Image :=
  res_bind (py_getitem prediction "bytesBase64Encoded") (fun b64 =>
  res_bind (py_b64decode b64) (Image_open E)).



(** * Properties *)

(** ** Checking a property of small numbers by running it *)

Lemma below_complete (k : nat) (n : N) : (n < N.of_nat k)%N -> In n (below k).
Proof.
  intros Hn. unfold below. apply in_map_iff.
  exists (N.to_nat n). split.
  - apply N2Nat.id.
  - apply in_seq. lia.
Qed.

Lemma forall_below (P : N -> bool) (k : nat) :
  forallb P (below k) = true -> forall n, (n < N.of_nat k)%N -> P n = true.
Proof.
  intros H n Hn. rewrite forallb_forall in H. apply H, below_complete, Hn.
Qed.

Lemma forall_below2 (P : N -> N -> bool) (k : nat) :
  forallb (fun a => forallb (P a) (below k)) (below k) = true ->
  forall a b, (a < N.of_nat k)%N -> (b < N.of_nat k)%N -> P a b = true.
Proof.
  intros H a b Ha Hb.
  apply (forall_below (P a) k); [|exact Hb].
  apply (forall_below (fun a => forallb (P a) (below k)) k H a Ha).
Qed.

(** ** base64 *)
Module Base64Facts.
Import Base64.
Local Open Scope N_scope.
Local Open Scope list_scope.

Lemma sextets_ok_all a b : a < 256 -> b < 256 -> sextets_ok a b = true.
Proof.
  assert (Hall : forallb (fun a => forallb (sextets_ok a) (below 256)) (below 256) = true)
    by (vm_compute; reflexivity).
  exact (forall_below2 sextets_ok 256 Hall a b).
Qed.

Lemma a2b_b2a n : n < 64 -> a2b (b2a n) = Some n.
Proof.
  intros H.
  assert (Hall : forallb a2b_inverts (below 64) = true) by (vm_compute; reflexivity).
  pose proof (forall_below a2b_inverts 64 Hall n H) as Hc.
  unfold a2b_inverts in Hc. destruct (a2b (b2a n)); [|discriminate].
  apply N.eqb_eq in Hc. now subst.
Qed.

Lemma b2a_not_pad n : n < 64 -> Byte.eqb (b2a n) BASE64_PAD = false.
Proof.
  intros H.
  assert (Hall : forallb (fun n => negb (Byte.eqb (b2a n) BASE64_PAD)) (below 64) = true)
    by (vm_compute; reflexivity).
  pose proof (forall_below _ 64 Hall n H) as Hc. cbv beta in Hc.
  now apply negb_true_iff in Hc.
Qed.

Lemma b2a_is_ascii n : n < 64 -> is_ascii (b2a n) = true.
Proof.
  intros H.
  assert (Hall : forallb (fun n => is_ascii (b2a n)) (below 64) = true)
    by (vm_compute; reflexivity).
  exact (forall_below _ 64 Hall n H).
Qed.

Lemma uchar_to_N x : uchar (Byte.to_N x) = x.
Proof. destruct x; reflexivity. Qed.

Lemma to_N_lt x : Byte.to_N x < 256.
Proof. pose proof (Byte.to_N_bounded x). lia. Qed.

(** One step of the decoder on a character of the alphabet. *)
Lemma a2b_step_sextet n st :
  n < 64 ->
  a2b_step (b2a n) st =
  match quad_pos st with
  | 0 => Continue (mk_dstate 1 n 0 (bin_data st))
  | 1 =>
      Continue (mk_dstate 2 (N.land n 15) 0
        (bin_data st ++ [uchar (N.lor (N.shiftl (leftchar st) 2) (N.shiftr n 4))]))
  | 2 =>
      Continue (mk_dstate 3 (N.land n 3) 0
        (bin_data st ++ [uchar (N.lor (N.shiftl (leftchar st) 4) (N.shiftr n 2))]))
  | _ =>
      Continue (mk_dstate 0 0 0
        (bin_data st ++ [uchar (N.lor (N.shiftl (leftchar st) 6) n)]))
  end.
Proof.
  intros H. unfold a2b_step.
  rewrite (b2a_not_pad n H), (a2b_b2a n H). reflexivity.
Qed.


Lemma sextet_props a b :
  a < 256 -> b < 256 ->
  N.shiftr a 2 < 64 /\ sx1 a b < 64 /\ sx2 a b < 64 /\ N.land a 63 < 64
  /\ N.shiftl (N.land a 3) 4 < 64 /\ N.shiftl (N.land a 15) 2 < 64
  /\ N.lor (N.shiftl (N.shiftr a 2) 2) (N.shiftr (sx1 a b) 4) = a
  /\ N.land (sx1 a b) 15 = N.shiftr b 4
  /\ N.lor (N.shiftl (N.shiftr a 4) 4) (N.shiftr (sx2 a b) 2) = a
  /\ N.land (sx2 a b) 3 = N.shiftr b 6
  /\ N.lor (N.shiftl (N.shiftr a 6) 6) (N.land a 63) = a
  /\ N.lor (N.shiftl (N.shiftr a 2) 2) (N.shiftr (N.shiftl (N.land a 3) 4) 4) = a
  /\ N.land (N.shiftl (N.land a 3) 4) 15 = 0
  /\ N.lor (N.shiftl (N.shiftr a 4) 4) (N.shiftr (N.shiftl (N.land a 15) 2) 2) = a.
Proof.
  intros Ha Hb. pose proof (sextets_ok_all a b Ha Hb) as H.
  unfold sextets_ok in H.
  rewrite !andb_true_iff, !N.ltb_lt, !N.eqb_eq in H. tauto.
Qed.

(** A full group of three bytes brings the decoder back to its start. *)
Lemma a2b_loop_group x y z rest out :
  a2b_loop (b2a_base64 (x :: y :: z :: rest)) (mk_dstate 0 0 0 out)
  = a2b_loop (b2a_base64 rest) (mk_dstate 0 0 0 (out ++ [x; y; z])).
Proof.
  destruct (sextet_props _ _ (to_N_lt x) (to_N_lt y))
    as (X0 & X1 & _ & _ & _ & _ & X6 & X7 & _).
  destruct (sextet_props _ _ (to_N_lt y) (to_N_lt z))
    as (_ & _ & Y2 & _ & _ & _ & _ & _ & Y8 & Y9 & _).
  destruct (sextet_props _ _ (to_N_lt z) (to_N_lt z))
    as (_ & _ & _ & Z3 & _ & _ & _ & _ & _ & _ & Z10 & _).
  unfold sx1, sx2 in *.
  change (b2a_base64 (x :: y :: z :: rest)) with
    (b2a (N.shiftr (Byte.to_N x) 2)
     :: b2a (N.lor (N.shiftl (N.land (Byte.to_N x) 3) 4) (N.shiftr (Byte.to_N y) 4))
     :: b2a (N.lor (N.shiftl (N.land (Byte.to_N y) 15) 2) (N.shiftr (Byte.to_N z) 6))
     :: b2a (N.land (Byte.to_N z) 63)
     :: b2a_base64 rest).
  cbn [a2b_loop].
  rewrite (a2b_step_sextet _ _ X0). cbn [quad_pos leftchar pads bin_data].
  rewrite (a2b_step_sextet _ _ X1). cbn [quad_pos leftchar pads bin_data].
  rewrite (a2b_step_sextet _ _ Y2). cbn [quad_pos leftchar pads bin_data].
  rewrite (a2b_step_sextet _ _ Z3). cbn [quad_pos leftchar pads bin_data].
  rewrite X6, X7, Y8, Y9, Z10, !uchar_to_N, <- !app_assoc.
  reflexivity.
Qed.

Lemma a2b_loop_tail1 x out :
  a2b_loop (b2a_base64 [x]) (mk_dstate 0 0 0 out) = Ok (out ++ [x]).
Proof.
  destruct (sextet_props _ _ (to_N_lt x) (to_N_lt x))
    as (X0 & _ & _ & _ & X4 & _ & _ & _ & _ & _ & _ & X11 & _).
  change (b2a_base64 [x]) with
    [ b2a (N.shiftr (Byte.to_N x) 2);
      b2a (N.shiftl (N.land (Byte.to_N x) 3) 4);
      BASE64_PAD; BASE64_PAD ].
  cbn [a2b_loop].
  rewrite (a2b_step_sextet _ _ X0). cbn [quad_pos leftchar pads bin_data].
  rewrite (a2b_step_sextet _ _ X4). cbn [quad_pos leftchar pads bin_data].
  rewrite X11, uchar_to_N. reflexivity.
Qed.

Lemma a2b_loop_tail2 x y out :
  a2b_loop (b2a_base64 [x; y]) (mk_dstate 0 0 0 out) = Ok (out ++ [x; y]).
Proof.
  destruct (sextet_props _ _ (to_N_lt x) (to_N_lt y))
    as (X0 & X1 & _ & _ & _ & _ & X6 & X7 & _).
  destruct (sextet_props _ _ (to_N_lt y) (to_N_lt y))
    as (_ & _ & _ & _ & _ & Y5 & _ & _ & _ & _ & _ & _ & _ & Y13).
  unfold sx1 in *.
  change (b2a_base64 [x; y]) with
    [ b2a (N.shiftr (Byte.to_N x) 2);
      b2a (N.lor (N.shiftl (N.land (Byte.to_N x) 3) 4) (N.shiftr (Byte.to_N y) 4));
      b2a (N.shiftl (N.land (Byte.to_N y) 15) 2);
      BASE64_PAD ].
  cbn [a2b_loop].
  rewrite (a2b_step_sextet _ _ X0). cbn [quad_pos leftchar pads bin_data].
  rewrite (a2b_step_sextet _ _ X1). cbn [quad_pos leftchar pads bin_data].
  rewrite (a2b_step_sextet _ _ Y5). cbn [quad_pos leftchar pads bin_data].
  rewrite X6, X7, Y13, !uchar_to_N, <- !app_assoc. reflexivity.
Qed.

(** Lists are consumed three bytes at a time. *)
Lemma by_groups (P : bytes -> Prop) :
  P [] -> (forall x, P [x]) -> (forall x y, P [x; y]) ->
  (forall x y z rest, P rest -> P (x :: y :: z :: rest)) ->
  forall data, P data.
Proof.
  intros H0 H1 H2 H3 data.
  assert (H : forall n data, (List.length data <= n)%nat -> P data).
  { induction n as [|n IH]; intros [|x [|y [|z rest]]] Hlen; auto.
    - cbn in Hlen. lia.
    - apply H3, IH. cbn in Hlen. lia. }
  apply (H (List.length data)). lia.
Qed.

Lemma a2b_loop_b2a data :
  forall out, a2b_loop (b2a_base64 data) (mk_dstate 0 0 0 out) = Ok (out ++ data).
Proof.
  induction data as [|x|x y|x y z rest IH] using by_groups; intros out.
  - cbn. now rewrite app_nil_r.
  - apply a2b_loop_tail1.
  - apply a2b_loop_tail2.
  - rewrite a2b_loop_group, IH, <- app_assoc. reflexivity.
Qed.

Lemma a2b_base64_b64encode data : a2b_base64 (b64encode data) = Ok data.
Proof. unfold a2b_base64, b64encode, dstate0. now rewrite a2b_loop_b2a. Qed.

Lemma b64encode_is_ascii data : forallb is_ascii (b64encode data) = true.
Proof.
  unfold b64encode.
  induction data as [|x|x y|x y z rest IH] using by_groups.
  - reflexivity.
  - destruct (sextet_props _ _ (to_N_lt x) (to_N_lt x))
      as (X0 & _ & _ & _ & X4 & _).
    cbn [b2a_base64 forallb]. now rewrite !b2a_is_ascii.
  - destruct (sextet_props _ _ (to_N_lt x) (to_N_lt y)) as (X0 & X1 & _).
    destruct (sextet_props _ _ (to_N_lt y) (to_N_lt y))
      as (_ & _ & _ & _ & _ & Y5 & _).
    unfold sx1 in *. cbn [b2a_base64 forallb]. now rewrite !b2a_is_ascii.
  - destruct (sextet_props _ _ (to_N_lt x) (to_N_lt y)) as (X0 & X1 & _).
    destruct (sextet_props _ _ (to_N_lt y) (to_N_lt z)) as (_ & _ & Y2 & _).
    destruct (sextet_props _ _ (to_N_lt z) (to_N_lt z)) as (_ & _ & _ & Z3 & _).
    unfold sx1, sx2 in *. cbn [b2a_base64 forallb].
    now rewrite !b2a_is_ascii, IH.
Qed.

End Base64Facts.

(** ASCII text is well-formed UTF-8. *)
Lemma utf8_valid_ascii (bs : bytes) :
  forallb Base64.is_ascii bs = true -> Utf8.valid bs = true.
Proof.
  induction bs as [|b bs IH]; intros H.
  - reflexivity.
  - cbn [forallb] in H. apply andb_prop in H. destruct H as [Hb Hbs].
    unfold Base64.is_ascii in Hb. cbn [Utf8.valid]. rewrite Hb. auto.
Qed.

Lemma utf8_decode_b64encode (data : bytes) :
  Utf8.decode (Base64.b64encode data) = Ok (base64_text data).
Proof.
  unfold Utf8.decode.
  now rewrite (utf8_valid_ascii _ (Base64Facts.b64encode_is_ascii data)).
Qed.

Lemma b64decode_base64_text (data : bytes) :
  Base64.b64decode (base64_text data) = Ok data.
Proof.
  unfold Base64.b64decode, Base64.bytes_from_decode_data, base64_text.
  rewrite list_byte_of_string_of_list_byte, Base64Facts.b64encode_is_ascii.
  apply Base64Facts.a2b_base64_b64encode.
Qed.

Lemma encode_image_run (E : Env) (path : string) (h : Trace) (data : bytes) :
  open_rb_read E h path = Ok data ->
  encode_image E path h = (Ok (base64_text data), h).
Proof.
  intros H. unfold encode_image, bind, lift. rewrite H.
  now rewrite utf8_decode_b64encode.
Qed.

(** C7. Whatever bytes an input file holds, the base64 text [encode_image]
    makes of them decodes, with [base64.b64decode] as the saving loop calls
    it, to exactly those bytes. *)
Theorem encode_image_roundtrip (E : Env) (path : string) (h : Trace) (data : bytes) :
  open_rb_read E h path = Ok data ->
  exists txt,
    encode_image E path h = (Ok txt, h)
    /\ Base64.b64decode txt = Ok data
    /\ py_b64decode (JStr txt) = Ok data.
Proof.
  intros H. exists (base64_text data). split; [|split].
  - now apply encode_image_run.
  - apply b64decode_base64_text.
  - apply b64decode_base64_text.
Qed.

Lemma encode_image_roundtrip_witness :
  exists txt,
    encode_image (demo_env (demo_ok_response [])) "./images/person.png" [] = (Ok txt, [])
    /\ Base64.b64decode txt = Ok demo_person
    /\ py_b64decode (JStr txt) = Ok demo_person.
Proof.
  apply (encode_image_roundtrip (demo_env (demo_ok_response []))
           "./images/person.png" [] demo_person).
  reflexivity.
Defined.

(** ** The request body *)

Lemma mentions_key_py_int (k : string) (o : option Z) :
  mentions_key k (py_int o) = false.
Proof. destruct o; reflexivity. Qed.

(** Case analysis on the two optional keys of the request body. *)
Ltac body_cases H :=
  unfold request_body in H;
  match type of H with
  | context [seed ?a] =>
      destruct (seed a) as [?s|] eqn:?Hseed;
      destruct (compression_quality a) as [?c|] eqn:?Hcq;
      cbn [is_some truthy py_int] in H;
      try match type of H with
          | context [(?c =? 0)%Z] => destruct (Z.eqb_spec c 0)
          end;
      destruct (String.eqb_spec (output_mime_type a) "image/jpeg");
      cbn in H; injection H as <-
  end.

Lemma request_body_total (a : TryOnArgs) (p q : string) :
  exists body, request_body a p q = Ok body.
Proof.
  unfold request_body.
  destruct (is_some (seed a)),
    (truthy (compression_quality a) && String.eqb (output_mime_type a) "image/jpeg");
    cbn; eauto.
Qed.

Lemma request_body_counts (a : TryOnArgs) (p q : string) (body : json) :
  request_body a p q = Ok body ->
  json_lookup ["parameters"; "sampleCount"] body = Some (JInt (sample_count a))
  /\ json_lookup ["parameters"; "baseSteps"] body = Some (JInt (base_steps a)).
Proof. intros H. body_cases H; cbn; auto. Qed.

Lemma request_body_seed_none (a : TryOnArgs) (p q : string) (body : json) :
  request_body a p q = Ok body -> seed a = None ->
  mentions_key "seed" body = false
  /\ json_lookup ["parameters"; "seed"] body = None.
Proof. intros H Hs. body_cases H; try discriminate; split; reflexivity. Qed.

Lemma request_body_seed_some (a : TryOnArgs) (p q : string) (body : json) (s : Z) :
  request_body a p q = Ok body -> seed a = Some s ->
  json_lookup ["parameters"; "seed"] body = Some (JInt s).
Proof. intros H Hs. body_cases H; try discriminate; injection Hs as ->; reflexivity. Qed.

Lemma request_body_quality_set (a : TryOnArgs) (p q : string) (body : json) (c : Z) :
  request_body a p q = Ok body ->
  compression_quality a = Some c -> c <> 0%Z ->
  output_mime_type a = "image/jpeg" ->
  json_lookup ["parameters"; "outputOptions"; "compressionQuality"] body
  = Some (JInt c).
Proof.
  intros H Hc Hnz Hm.
  body_cases H; try discriminate; try contradiction;
    injection Hc as ->; try contradiction; reflexivity.
Qed.

Lemma request_body_quality_unset (a : TryOnArgs) (p q : string) (body : json) :
  request_body a p q = Ok body ->
  truthy (compression_quality a) && String.eqb (output_mime_type a) "image/jpeg"
  = false ->
  mentions_key "compressionQuality" body = false
  /\ json_lookup ["parameters"; "outputOptions"; "compressionQuality"] body = None.
Proof.
  intros H Hg.
  body_cases H; try (split; reflexivity).
  all: exfalso; revert Hg; cbn [truthy];
    repeat match goal with
           | E : _ = "image/jpeg" |- _ => rewrite E
           end;
    cbn; destruct (Z.eqb_spec c 0); cbn; congruence.
Qed.

(** ** Running the client *)

Lemma try_on_answered (E : Env) (self : VirtualTryOnAPI) (a : TryOnArgs)
    (h : Trace) (body : json) (response : Response) (h1 : Trace) :
  answered E self a h body response h1 ->
  try_on E self a h = handle_response E a response h1.
Proof.
  intros (d1 & d2 & Hp & Hq & Hr1 & Hr2 & Hb & Hh & Hpost).
  unfold try_on, bind, ask. cbv beta iota.
  rewrite Hp. cbv beta iota delta [negb]. rewrite Hq. cbv beta iota delta [negb].
  rewrite (encode_image_run E _ h d1 Hr1). cbv beta iota.
  rewrite (encode_image_run E _ h d2 Hr2). cbv beta iota.
  unfold lift. rewrite Hb. unfold print, act. cbv beta iota.
  rewrite <- app_assoc. cbn [app]. rewrite <- Hh, Hpost. reflexivity.
Qed.

Lemma posts_app (t u : Trace) : posts (t ++ u)%list = (posts t ++ posts u)%list.
Proof.
  induction t as [|ev t IH]; [reflexivity|].
  destruct ev; cbn; now rewrite IH.
Qed.

Lemma made_dirs_app (t u : Trace) :
  made_dirs (t ++ u)%list = (made_dirs t ++ made_dirs u)%list.
Proof.
  induction t as [|ev t IH]; [reflexivity|].
  destruct ev; cbn; now rewrite IH.
Qed.

Lemma saved_files_app (t u : Trace) :
  saved_files (t ++ u)%list = (saved_files t ++ saved_files u)%list.
Proof.
  induction t as [|ev t IH]; [reflexivity|].
  destruct ev; cbn; now rewrite IH.
Qed.

Lemma save_or_print_posts (t : Trace) : Forall save_or_print t -> posts t = [].
Proof.
  induction 1 as [|ev t Hev _ IH]; [reflexivity|].
  destruct ev; cbn in *; tauto.
Qed.

Lemma save_or_print_made_dirs (t : Trace) :
  Forall save_or_print t -> made_dirs t = [].
Proof.
  induction 1 as [|ev t Hev _ IH]; [reflexivity|].
  destruct ev; cbn in *; tauto.
Qed.

(** Taking a run of the monad apart, one call at a time. *)
Ltac run_cases H :=
  repeat match type of H with
         | context [match ?x with _ => _ end] => destruct x eqn:?
         end.

Lemma save_prediction_trace (E : Env) (a : TryOnArgs) (i : nat) (p : json)
    (h : Trace) (r : Res string) (h' : Trace) :
  save_prediction E a i p h = (r, h') ->
  exists new, h' = (h ++ new)%list /\ Forall save_or_print new.
Proof.
  unfold save_prediction, print, bind, lift, act, ret. intros H.
  run_cases H; injection H as <- <-;
    repeat match goal with
           | E : (_, _) = (_, _) |- _ => injection E as <- <-
           end;
    rewrite <- ?app_assoc;
    first [ exists []; split; [now rewrite app_nil_r | constructor]
          | eexists; split; [reflexivity | repeat constructor] ].
Qed.

Lemma save_loop_trace (E : Env) (a : TryOnArgs) (preds : list json) :
  forall (i : nat) (saved : list string) (h : Trace) r h',
  save_loop E a i preds saved h = (r, h') ->
  exists new, h' = (h ++ new)%list /\ Forall save_or_print new.
Proof.
  induction preds as [|p preds IH]; intros i saved h r h' H.
  - cbn in H. injection H as <- <-. exists []. split; [now rewrite app_nil_r | constructor].
  - cbn [save_loop] in H. unfold bind in H.
    destruct (save_prediction E a i p h) as [[path|e] h1] eqn:Hp.
    + apply save_prediction_trace in Hp. destruct Hp as (n1 & -> & F1).
      apply IH in H. destruct H as (n2 & -> & F2).
      exists (n1 ++ n2)%list. split; [now rewrite app_assoc | now apply Forall_app].
    + injection H as <- <-. now apply save_prediction_trace in Hp.
Qed.

Lemma encode_image_trace (E : Env) (path : string) (h : Trace) r h' :
  encode_image E path h = (r, h') -> h' = h.
Proof.
  unfold encode_image, bind, lift. intros H.
  destruct (open_rb_read E h path); injection H as <- <-; reflexivity.
Qed.

Ltac no_new_events :=
  exists []; split; [now rewrite app_nil_r | try reflexivity; try constructor].

Lemma handle_response_trace (E : Env) (a : TryOnArgs) (response : Response)
    (h : Trace) r h' :
  handle_response E a response h = (r, h') ->
  exists new, h' = (h ++ new)%list /\ posts new = [].
Proof.
  unfold handle_response, raise, bind, lift, act. intros H.
  destruct (negb (status_code response =? 200)%Z).
  { injection H as <- <-. no_new_events. }
  destruct (json_ response) as [result|e].
  2: { injection H as <- <-. no_new_events. }
  destruct (os_makedirs E _ (output_dir a)).
  2: { injection H as <- <-. eexists. split; reflexivity. }
  destruct (py_get result "predictions" (JArr [])) as [predictions|e].
  2: { injection H as <- <-. eexists. split; reflexivity. }
  destruct (py_iter predictions) as [items|e].
  2: { injection H as <- <-. eexists. split; reflexivity. }
  apply save_loop_trace in H. destruct H as (new & -> & F).
  exists (EvMakedirs (output_dir a) :: new). split.
  - now rewrite <- app_assoc.
  - cbn. now apply save_or_print_posts.
Qed.

(** A call posts at most once, and what it posts is the request body built
    from its arguments. *)
Lemma try_on_posts (E : Env) (self : VirtualTryOnAPI) (a : TryOnArgs)
    (h : Trace) r h' :
  try_on E self a h = (r, h') ->
  exists new,
    h' = (h ++ new)%list
    /\ (posts new = []
        \/ exists p q body,
             request_body a p q = Ok body
             /\ posts new = [(endpoint self, body)]).
Proof.
  unfold try_on, bind, ask. cbv beta iota. intros H.
  destruct (os_path_exists E h (person_image_path a)); cbv beta iota delta [negb] in H.
  2: { injection H as <- <-. exists []; split; [now rewrite app_nil_r | now left]. }
  destruct (os_path_exists E h (product_image_path a)); cbv beta iota delta [negb] in H.
  2: { injection H as <- <-. exists []; split; [now rewrite app_nil_r | now left]. }
  destruct (encode_image E (person_image_path a) h) as [[p|e] h1] eqn:He1;
    apply encode_image_trace in He1; subst h1.
  2: { injection H as <- <-. exists []; split; [now rewrite app_nil_r | now left]. }
  destruct (encode_image E (product_image_path a) h) as [[q|e] h1] eqn:He2;
    apply encode_image_trace in He2; subst h1.
  2: { injection H as <- <-. exists []; split; [now rewrite app_nil_r | now left]. }
  unfold lift in H.
  destruct (request_body a p q) as [body|e] eqn:Hb.
  2: { injection H as <- <-. exists []; split; [now rewrite app_nil_r | now left]. }
  unfold print, act in H. cbv beta iota in H.
  destruct (session_post E _ (credentials self) (endpoint self) body) as [response|e].
  2: { injection H as <- <-. rewrite <- app_assoc. eexists. split; [reflexivity|].
       right. exists p, q, body. split; [exact Hb | reflexivity]. }
  apply handle_response_trace in H. destruct H as (new & -> & Hn).
  exists (EvPrint (progress_message a) :: EvPost (endpoint self) body :: new).
  split.
  - now rewrite <- !app_assoc.
  - right. exists p, q, body. split; [exact Hb|]. cbn. now rewrite Hn.
Qed.

Lemma posted_body (E : Env) (self : VirtualTryOnAPI) (a : TryOnArgs)
    (h : Trace) r (new : Trace) (url : string) (body : json) :
  try_on E self a h = (r, (h ++ new)%list) ->
  In (url, body) (posts new) ->
  url = endpoint self /\ exists p q, request_body a p q = Ok body.
Proof.
  intros H Hin. apply try_on_posts in H.
  destruct H as (new' & Heq & Hp). apply app_inv_head in Heq. subst new'.
  destruct Hp as [Hp | (p & q & body' & Hb & Hp)]; rewrite Hp in Hin.
  - destruct Hin.
  - destruct Hin as [Hin | []]. injection Hin as <- <-. eauto.
Qed.

(** ** Properties of [try_on] *)

(** C2. When one of the two input paths does not exist, [try_on] raises
    [FileNotFoundError] with a message that ends in the missing path (the
    person image being looked at first), and the trace is what it was
    before the call: nothing has been posted, created, saved or printed. *)
Theorem missing_input_raises (E : Env) (self : VirtualTryOnAPI) (a : TryOnArgs)
    (h : Trace) :
  os_path_exists E h (person_image_path a) = false
  \/ os_path_exists E h (product_image_path a) = false ->
  (os_path_exists E h (person_image_path a) = false
   /\ try_on E self a h
      = (Raise (FileNotFoundError
                  ("人物画像が見つかりません: " ++ person_image_path a)), h))
  \/ (os_path_exists E h (person_image_path a) = true
      /\ os_path_exists E h (product_image_path a) = false
      /\ try_on E self a h
         = (Raise (FileNotFoundError
                     ("商品画像が見つかりません: " ++ product_image_path a)), h)).
Proof.
  intros H. unfold try_on, bind, ask, raise. cbv beta iota.
  destruct (os_path_exists E h (person_image_path a)) eqn:Hp.
  - right. destruct H as [H | H]; [discriminate|].
    cbv beta iota delta [negb]. rewrite H. cbv beta iota. repeat split; reflexivity.
  - left. cbv beta iota delta [negb]. split; reflexivity.
Qed.

Lemma missing_input_raises_witness :
  (os_path_exists (demo_env (demo_ok_response [])) [] "./images/nobody.png" = false
   /\ try_on (demo_env (demo_ok_response [])) demo_api missing_person_args []
      = (Raise (FileNotFoundError
                  "人物画像が見つかりません: ./images/nobody.png"), []))
  \/ (os_path_exists (demo_env (demo_ok_response [])) [] "./images/nobody.png" = true
      /\ os_path_exists (demo_env (demo_ok_response [])) [] "./images/dress.png" = false
      /\ try_on (demo_env (demo_ok_response [])) demo_api missing_person_args []
         = (Raise (FileNotFoundError
                     "商品画像が見つかりません: ./images/dress.png"), [])).
Proof.
  apply (missing_input_raises (demo_env (demo_ok_response [])) demo_api
           missing_person_args []).
  left. reflexivity.
Defined.

(** C3. When the response to the POST has a status other than 200,
    [try_on] raises an exception whose message holds that status and the
    text of the response as it came; the call has printed its progress
    line and posted once, and has neither created a directory nor saved a
    file. *)
Theorem non_200_raises (E : Env) (self : VirtualTryOnAPI) (a : TryOnArgs)
    (h : Trace) (body : json) (response : Response) (h1 : Trace) :
  answered E self a h body response h1 ->
  status_code response <> 200%Z ->
  let new := [EvPrint (progress_message a); EvPost (endpoint self) body] in
  try_on E self a h
  = (Raise (Exception_ ("APIエラー: " ++ str_int (status_code response)
                        ++ " - " ++ text response)),
     (h ++ new)%list)
  /\ posts new = [(endpoint self, body)]
  /\ made_dirs new = []
  /\ saved_files new = [].
Proof.
  intros Ha Hs new. split; [|repeat split].
  rewrite (try_on_answered _ _ _ _ _ _ _ Ha).
  destruct Ha as (d1 & d2 & _ & _ & _ & _ & _ & -> & _).
  unfold handle_response, raise.
  apply Z.eqb_neq in Hs. rewrite Hs. reflexivity.
Qed.

(** In the small world a call with the two demo images is answered. *)
Lemma demo_answered (resp : Response) (a : TryOnArgs) :
  person_image_path a = "./images/person.png" ->
  product_image_path a = "./images/dress.png" ->
  answered (demo_env (Ok resp)) demo_api a [] (demo_body a) resp (demo_sent a).
Proof.
  intros Hp Hq. exists demo_person, demo_product.
  rewrite Hp, Hq. repeat split; try reflexivity.
  unfold demo_body.
  destruct (request_body_total a (base64_text demo_person) (base64_text demo_product))
    as (body & ->).
  reflexivity.
Qed.

Lemma non_200_raises_witness :
  let new := [EvPrint (progress_message main_args);
              EvPost (endpoint demo_api) (demo_body main_args)] in
  try_on (demo_env (Ok denied_response)) demo_api main_args []
  = (Raise (Exception_ ("APIエラー: " ++ str_int 403 ++ " - " ++ denied_text)),
     ([] ++ new)%list)
  /\ posts new = [(endpoint demo_api, demo_body main_args)]
  /\ made_dirs new = []
  /\ saved_files new = [].
Proof.
  apply (non_200_raises (demo_env (Ok denied_response)) demo_api main_args []
           (demo_body main_args) denied_response (demo_sent main_args)).
  - apply demo_answered; reflexivity.
  - cbn. discriminate.
Defined.

(** C4. Whatever a call posts: with [output_mime_type="image/jpeg"] and
    [compression_quality=85] the body holds 85 at
    [parameters.outputOptions.compressionQuality]; with
    [output_mime_type="image/png"] no object of the body has a
    [compressionQuality] key, whatever [compression_quality] is. *)
Theorem compression_quality_in_request (E : Env) (self : VirtualTryOnAPI)
    (a : TryOnArgs) (h : Trace) (r : Res (list string)) (new : Trace)
    (url : string) (body : json) :
  try_on E self a h = (r, (h ++ new)%list) ->
  In (url, body) (posts new) ->
  (output_mime_type a = "image/jpeg" ->
   compression_quality a = Some 85%Z ->
   json_lookup ["parameters"; "outputOptions"; "compressionQuality"] body
   = Some (JInt 85))
  /\ (output_mime_type a = "image/png" ->
      mentions_key "compressionQuality" body = false
      /\ json_lookup ["parameters"; "outputOptions"; "compressionQuality"] body
         = None).
Proof.
  intros H Hin. destruct (posted_body _ _ _ _ _ _ _ _ H Hin) as (_ & p & q & Hb).
  split.
  - intros Hm Hc. apply (request_body_quality_set a p q body 85 Hb Hc); [lia | exact Hm].
  - intros Hm. apply (request_body_quality_unset a p q body Hb).
    rewrite Hm. apply andb_false_r.
Qed.

(** C5. Whatever a call posts: with [seed=None] no object of the body has
    a [seed] key; with [seed=s] the body holds [s] at [parameters.seed]. *)
Theorem seed_in_request (E : Env) (self : VirtualTryOnAPI)
    (a : TryOnArgs) (h : Trace) (r : Res (list string)) (new : Trace)
    (url : string) (body : json) :
  try_on E self a h = (r, (h ++ new)%list) ->
  In (url, body) (posts new) ->
  (seed a = None ->
   mentions_key "seed" body = false
   /\ json_lookup ["parameters"; "seed"] body = None)
  /\ (forall s, seed a = Some s ->
      json_lookup ["parameters"; "seed"] body = Some (JInt s)).
Proof.
  intros H Hin. destruct (posted_body _ _ _ _ _ _ _ _ H Hin) as (_ & p & q & Hb).
  split.
  - intros Hs. exact (request_body_seed_none a p q body Hb Hs).
  - intros s Hs. exact (request_body_seed_some a p q body s Hb Hs).
Qed.

(** C10. Whatever a call posts: with [output_mime_type="image/jpeg"] and
    [compression_quality=0] no object of the body has a
    [compressionQuality] key, while [seed=0] is sent as [parameters.seed]. *)
Theorem zero_quality_dropped_zero_seed_kept (E : Env) (self : VirtualTryOnAPI)
    (a : TryOnArgs) (h : Trace) (r : Res (list string)) (new : Trace)
    (url : string) (body : json) :
  try_on E self a h = (r, (h ++ new)%list) ->
  In (url, body) (posts new) ->
  (output_mime_type a = "image/jpeg" ->
   compression_quality a = Some 0%Z ->
   mentions_key "compressionQuality" body = false
   /\ json_lookup ["parameters"; "outputOptions"; "compressionQuality"] body
      = None)
  /\ (seed a = Some 0%Z ->
      json_lookup ["parameters"; "seed"] body = Some (JInt 0)).
Proof.
  intros H Hin. destruct (posted_body _ _ _ _ _ _ _ _ H Hin) as (_ & p & q & Hb).
  split.
  - intros Hm Hc. apply (request_body_quality_unset a p q body Hb).
    rewrite Hc. reflexivity.
  - intros Hs. exact (request_body_seed_some a p q body 0 Hb Hs).
Qed.

(** C8, as the code has it. Whatever a call posts, [parameters.sampleCount]
    and [parameters.baseSteps] of the body are the arguments [sample_count]
    and [base_steps] as given; they are positive when the arguments are. *)
Theorem counts_sent_as_given (E : Env) (self : VirtualTryOnAPI)
    (a : TryOnArgs) (h : Trace) (r : Res (list string)) (new : Trace)
    (url : string) (body : json) :
  try_on E self a h = (r, (h ++ new)%list) ->
  In (url, body) (posts new) ->
  exists n m : Z,
    json_lookup ["parameters"; "sampleCount"] body = Some (JInt n)
    /\ json_lookup ["parameters"; "baseSteps"] body = Some (JInt m)
    /\ n = sample_count a /\ m = base_steps a
    /\ ((0 < sample_count a)%Z -> (0 < base_steps a)%Z -> (0 < n)%Z /\ (0 < m)%Z).
Proof.
  intros H Hin. destruct (posted_body _ _ _ _ _ _ _ _ H Hin) as (_ & p & q & Hb).
  destruct (request_body_counts a p q body Hb) as (Hn & Hm).
  exists (sample_count a), (base_steps a). repeat split; auto.
Qed.

Lemma compression_quality_in_request_witness :
  json_lookup ["parameters"; "outputOptions"; "compressionQuality"]
    (demo_body (jpeg_args (Some 85%Z) None)) = Some (JInt 85)
  /\ mentions_key "compressionQuality" (demo_body (png_args (Some 85%Z))) = false.
Proof.
  split.
  - apply (compression_quality_in_request (demo_env (demo_ok_response []))
             demo_api (jpeg_args (Some 85%Z) None) []
             (fst (demo_run (jpeg_args (Some 85%Z) None)))
             (snd (demo_run (jpeg_args (Some 85%Z) None)))
             (endpoint demo_api) (demo_body (jpeg_args (Some 85%Z) None))).
    + vm_compute. reflexivity.
    + vm_compute. left. reflexivity.
    + reflexivity.
    + reflexivity.
  - apply (compression_quality_in_request (demo_env (demo_ok_response []))
             demo_api (png_args (Some 85%Z)) []
             (fst (demo_run (png_args (Some 85%Z))))
             (snd (demo_run (png_args (Some 85%Z))))
             (endpoint demo_api) (demo_body (png_args (Some 85%Z)))).
    + vm_compute. reflexivity.
    + vm_compute. left. reflexivity.
    + reflexivity.
Defined.

Lemma seed_in_request_witness :
  json_lookup ["parameters"; "seed"] (demo_body main_args) = Some (JInt 42)
  /\ mentions_key "seed" (demo_body (png_args None)) = false.
Proof.
  split.
  - apply (seed_in_request (demo_env (demo_ok_response []))
             demo_api main_args []
             (fst (demo_run main_args)) (snd (demo_run main_args))
             (endpoint demo_api) (demo_body main_args)).
    + vm_compute. reflexivity.
    + vm_compute. left. reflexivity.
    + reflexivity.
  - apply (seed_in_request (demo_env (demo_ok_response []))
             demo_api (png_args None) []
             (fst (demo_run (png_args None))) (snd (demo_run (png_args None)))
             (endpoint demo_api) (demo_body (png_args None))).
    + vm_compute. reflexivity.
    + vm_compute. left. reflexivity.
    + reflexivity.
Defined.

Lemma zero_quality_dropped_zero_seed_kept_witness :
  mentions_key "compressionQuality"
    (demo_body (jpeg_args (Some 0%Z) (Some 0%Z))) = false
  /\ json_lookup ["parameters"; "seed"]
       (demo_body (jpeg_args (Some 0%Z) (Some 0%Z))) = Some (JInt 0).
Proof.
  pose proof (zero_quality_dropped_zero_seed_kept (demo_env (demo_ok_response []))
             demo_api (jpeg_args (Some 0%Z) (Some 0%Z)) []
             (fst (demo_run (jpeg_args (Some 0%Z) (Some 0%Z))))
             (snd (demo_run (jpeg_args (Some 0%Z) (Some 0%Z))))
             (endpoint demo_api) (demo_body (jpeg_args (Some 0%Z) (Some 0%Z)))) as W.
  destruct W as (W1 & W2).
  - vm_compute. reflexivity.
  - vm_compute. left. reflexivity.
  - split.
    + apply W1; reflexivity.
    + apply W2; reflexivity.
Defined.

Lemma counts_sent_as_given_witness :
  exists n m : Z,
    json_lookup ["parameters"; "sampleCount"] (demo_body main_args) = Some (JInt n)
    /\ json_lookup ["parameters"; "baseSteps"] (demo_body main_args) = Some (JInt m)
    /\ n = 1%Z /\ m = 32%Z
    /\ ((0 < 1)%Z -> (0 < 32)%Z -> (0 < n)%Z /\ (0 < m)%Z).
Proof.
  apply (counts_sent_as_given (demo_env (demo_ok_response []))
           demo_api main_args []
           (fst (demo_run main_args)) (snd (demo_run main_args))
           (endpoint demo_api) (demo_body main_args)).
  - vm_compute. reflexivity.
  - vm_compute. left. reflexivity.
Defined.

(** C8 does not hold as stated: a call with [sample_count=0] and
    [base_steps=-5] posts a request whose [sampleCount] is 0 and whose
    [baseSteps] is -5. *)
Lemma counts_not_checked :
  posts (snd (demo_run zero_count_args))
  = [(endpoint demo_api, demo_body zero_count_args)]
  /\ json_lookup ["parameters"; "sampleCount"] (demo_body zero_count_args)
     = Some (JInt 0)
  /\ json_lookup ["parameters"; "baseSteps"] (demo_body zero_count_args)
     = Some (JInt (-5))
  /\ ~ (0 < 0)%Z /\ ~ (0 < -5)%Z.
Proof.
  repeat split; try (vm_compute; reflexivity); lia.
Qed.

(** ** Paths *)
Module PurePathFacts.
Import PurePath.

Lemma contains_app (c : ascii) (s t : string) :
  contains c (s ++ t) = contains c s || contains c t.
Proof.
  induction s as [|d s IH]; [reflexivity|].
  cbn. now rewrite IH, orb_assoc.
Qed.

Lemma no_sep_app (s t : string) : no_sep s -> no_sep t -> no_sep (s ++ t).
Proof. unfold no_sep. intros Hs Ht. now rewrite contains_app, Hs, Ht. Qed.

Lemma no_sep_substring (s : string) :
  no_sep s -> forall n, no_sep (substring 0 n s).
Proof.
  unfold no_sep. induction s as [|d s IH]; intros H n.
  - now destruct n.
  - cbn in H. apply orb_false_iff in H. destruct H as [Hd Hs].
    destruct n as [|n]; [reflexivity|].
    cbn. now rewrite Hd, (IH Hs n).
Qed.

Lemma split_nonempty (s : string) : split s <> [].
Proof.
  destruct s as [|c s]; cbn; [discriminate|].
  destruct (Ascii.eqb c sep); [discriminate|].
  destruct (split s); discriminate.
Qed.

(** No component of a split string holds a separator. *)
Lemma split_no_sep (s : string) : Forall no_sep (split s).
Proof.
  induction s as [|c s IH]; cbn.
  - repeat constructor.
  - destruct (Ascii.eqb c sep) eqn:Hc.
    + constructor; [reflexivity | exact IH].
    + destruct (split s) as [|w ws]; [repeat constructor; unfold no_sep; cbn; now rewrite Hc|].
      inversion IH as [|? ? Hw Hws]; subst.
      constructor; [|exact Hws].
      unfold no_sep in *. cbn. now rewrite Hc, Hw.
Qed.

(** A string without separator is its own single component. *)
Lemma split_single (s : string) : no_sep s -> split s = [s].
Proof.
  unfold no_sep. induction s as [|c s IH]; intros H; [reflexivity|].
  cbn in H. apply orb_false_iff in H. destruct H as [Hc Hs].
  cbn. rewrite Hc, (IH Hs). reflexivity.
Qed.

Lemma name_no_sep (s : string) : no_sep (name (Path s)).
Proof.
  unfold name, Path. destruct (splitroot s) as [rt rel]. cbn [parts].
  assert (F : Forall no_sep (filter keep_part (split rel))).
  { apply Forall_forall. intros w Hw. apply filter_In in Hw.
    destruct Hw as [Hw _]. revert w Hw. apply Forall_forall, split_no_sep. }
  induction F as [|w ws Hw _ IH]; [reflexivity|].
  destruct ws; [exact Hw | exact IH].
Qed.

Lemma stem_no_sep (s : string) : no_sep (stem (Path s)).
Proof.
  unfold stem. pose proof (name_no_sep s) as H.
  destruct (rfind "." (name (Path s))) as [i|]; [|exact H].
  destruct ((0 <? i) && (i <? String.length (name (Path s)) - 1))%nat; [|exact H].
  now apply no_sep_substring.
Qed.

Lemma string_of_uint_no_sep (d : Decimal.uint) :
  no_sep (NilEmpty.string_of_uint d).
Proof. induction d; cbn; [reflexivity | exact IHd ..]. Qed.

Lemma no_sep_cons (c : ascii) (s : string) :
  Ascii.eqb c sep = false -> no_sep s -> no_sep (String c s).
Proof. unfold no_sep. intros Hc Hs. cbn. now rewrite Hc, Hs. Qed.

Lemma nilzero_uint_no_sep (d : Decimal.uint) :
  no_sep (NilZero.string_of_uint d).
Proof.
  unfold NilZero.string_of_uint.
  destruct d; try reflexivity; apply (string_of_uint_no_sep (_ d)).
Qed.

Lemma str_int_no_sep (z : Z) : no_sep (str_int z).
Proof.
  unfold str_int, NilZero.string_of_int.
  destruct (Z.to_int z) as [d|d].
  - apply nilzero_uint_no_sep.
  - apply no_sep_cons; [reflexivity | apply nilzero_uint_no_sep].
Qed.


Lemma string_app_assoc (s t u : string) : (s ++ t) ++ u = s ++ (t ++ u).
Proof. induction s as [|c s IH]; cbn; [reflexivity | now rewrite IH]. Qed.

Lemma string_app_not_empty (s : string) (c : ascii) (t : string) :
  String.eqb (s ++ String c t) "" = false.
Proof. destruct s; reflexivity. Qed.

(** A name that starts like the generated ones parses as one component. *)
Lemma Path_single (c : ascii) (s : string) :
  Ascii.eqb c sep = false -> Ascii.eqb c "." = false -> no_sep s ->
  Path (String c s) = mk "" [String c s].
Proof.
  intros Hc Hd Hs. unfold Path, splitroot. rewrite Hc.
  rewrite (split_single (String c s) (no_sep_cons c s Hc Hs)).
  cbn [filter]. unfold keep_part. cbn. rewrite Hd. reflexivity.
Qed.


Lemma ext_of_cases (m : json) : ext_of m = ".png" \/ ext_of m = ".jpg".
Proof. unfold ext_of. destruct (py_eq_str m "image/png"); auto. Qed.

Lemma filename_no_sep (a : TryOnArgs) (i : nat) (ext : string) :
  no_sep ext -> no_sep (filename a i ext).
Proof.
  intros He. unfold filename.
  repeat first [ apply no_sep_app | apply stem_no_sep | apply str_int_no_sep
               | exact He | reflexivity ].
Qed.

Lemma filename_head (a : TryOnArgs) (i : nat) (ext : string) :
  exists rest, filename a i ext = String "v" rest /\ (no_sep ext -> no_sep rest).
Proof.
  unfold filename. eexists. split; [cbn; reflexivity|].
  intros He.
  repeat first [ apply no_sep_app | apply no_sep_cons | apply stem_no_sep
               | apply str_int_no_sep | exact He | reflexivity ].
Qed.

(** The saved path: the components of the output directory, then the
    generated file name. *)
Lemma filepath_parts (a : TryOnArgs) (i : nat) (ext : string) :
  no_sep ext ->
  filepath a i ext
  = mk (root (Path (output_dir a)))
       (parts (Path (output_dir a)) ++ [filename a i ext]).
Proof.
  intros He. unfold filepath, truediv.
  destruct (filename_head a i ext) as (rest & Hf & Hr).
  rewrite Hf, (Path_single "v" rest eq_refl eq_refl (Hr He)). reflexivity.
Qed.




End PurePathFacts.

(** ** The saving loop *)

Lemma ext_of_mime (d : list (string * json)) :
  exists m, py_get (JObj d) "mimeType" JNull = Ok m
            /\ ext_of m = extension_for (JObj d).
Proof.
  unfold py_get, extension_for, reports_png, ext_of.
  destruct (dict_get "mimeType" d) as [v|]; eexists; split; reflexivity.
Qed.

Lemma extension_for_cases (p : json) :
  extension_for p = ".png" \/ extension_for p = ".jpg".
Proof. unfold extension_for. destruct (reports_png p); auto. Qed.

Lemma extension_for_no_sep (p : json) : PurePath.no_sep (extension_for p).
Proof. destruct (extension_for_cases p) as [-> | ->]; reflexivity. Qed.



Lemma paths_from_app (a : TryOnArgs) (l1 l2 : list json) :
  forall i, paths_from a i (l1 ++ l2)
            = (paths_from a i l1 ++ paths_from a (i + List.length l1) l2)%list.
Proof.
  induction l1 as [|p l1 IH]; intros i; cbn.
  - now rewrite Nat.add_0_r.
  - now rewrite IH, Nat.add_succ_r.
Qed.

(** One round of the loop: what it may leave in the trace and return. *)
Lemma save_prediction_run (E : Env) (a : TryOnArgs) (i : nat) (p : json)
    (h : Trace) (r : Res string) (h' : Trace) :
  save_prediction E a i p h = (r, h') ->
  exists new,
    h' = (h ++ new)%list
    /\ Forall save_or_print new
    /\ ((saved_files new = [] /\ exists e, r = Raise e)
        \/ (saved_files new = [path_for a i p]
            /\ forall path, r = Ok path -> path = path_for a i p)).
Proof.
  unfold save_prediction, print, bind, lift, act, ret. intros H.
  destruct (py_getitem p "bytesBase64Encoded") as [b64|e] eqn:Hg.
  2: { injection H as <- <-. exists []. rewrite app_nil_r. eauto 6. }
  destruct (py_b64decode b64) as [data|e].
  2: { injection H as <- <-. exists []. rewrite app_nil_r. eauto 6. }
  destruct (Image_open E data) as [img|e].
  2: { injection H as <- <-. exists []. rewrite app_nil_r. eauto 6. }
  destruct p as [| | | | |d]; try discriminate.
  destruct (ext_of_mime d) as (m & Hm & Hext). rewrite Hm in H.
  rewrite Hext in H. fold (path_for a i (JObj d)) in H.
  destruct (Image_save E _ img (path_for a i (JObj d))).
  - injection H as <- <-. rewrite <- app_assoc. eexists. split; [reflexivity|].
    split; [repeat constructor|]. right. split; [reflexivity|].
    intros path [= <-]. reflexivity.
  - injection H as <- <-. eexists. split; [reflexivity|].
    split; [repeat constructor|]. right. split; [reflexivity|]. discriminate.
Qed.

Lemma save_loop_run (E : Env) (a : TryOnArgs) (preds : list json) :
  forall (i : nat) (saved : list string) (h : Trace) r h',
  save_loop E a i preds saved h = (r, h') ->
  exists new k,
    h' = (h ++ new)%list
    /\ Forall save_or_print new
    /\ saved_files new = paths_from a i (firstn k preds)
    /\ forall paths, r = Ok paths ->
         paths = (saved ++ paths_from a i preds)%list
         /\ saved_files new = paths_from a i preds.
Proof.
  induction preds as [|p preds IH]; intros i saved h r h' H.
  - cbn in H. injection H as <- <-. exists [], 0%nat. rewrite !app_nil_r.
    split; [reflexivity|]. split; [constructor|]. split; [reflexivity|].
    intros paths [= <-]. split; reflexivity.
  - cbn [save_loop] in H. unfold bind in H.
    destruct (save_prediction E a i p h) as [[path|e] h1] eqn:Hp;
      apply save_prediction_run in Hp;
      destruct Hp as (n1 & -> & F1 & [(S1 & e1 & He1) | (S1 & R1)]);
      try discriminate.
    + apply IH in H. destruct H as (n2 & k & -> & F2 & S2 & R2).
      exists (n1 ++ n2)%list, (S k). rewrite app_assoc.
      split; [reflexivity|]. split; [now apply Forall_app|].
      rewrite saved_files_app, S1. split; [now rewrite S2|].
      intros paths Hr. destruct (R2 paths Hr) as (-> & S3).
      rewrite <- app_assoc, (R1 path eq_refl), S3. split; reflexivity.
    + injection H as <- <-. exists n1, 0%nat.
      repeat split; auto. all: discriminate.
    + injection H as <- <-. exists n1, 1%nat.
      repeat split; auto. all: discriminate.
Qed.





(** What a run of [handle_response] saves: the paths of the first
    predictions, in order. *)
Lemma handle_response_saved (E : Env) (a : TryOnArgs) (response : Response)
    (h : Trace) r h' :
  handle_response E a response h = (r, h') ->
  exists new items k,
    h' = (h ++ new)%list
    /\ saved_files new = paths_from a 0 (firstn k items).
Proof.
  unfold handle_response, raise, bind, lift, act. intros H.
  destruct (negb (status_code response =? 200)%Z).
  { injection H as <- <-. exists [], [], 0%nat. now rewrite app_nil_r. }
  destruct (json_ response) as [result|e].
  2: { injection H as <- <-. exists [], [], 0%nat. now rewrite app_nil_r. }
  destruct (os_makedirs E _ (output_dir a)).
  2: { injection H as <- <-. eexists _, [], 0%nat. split; reflexivity. }
  destruct (py_get result "predictions" (JArr [])) as [predictions|e].
  2: { injection H as <- <-. eexists _, [], 0%nat. split; reflexivity. }
  destruct (py_iter predictions) as [items|e].
  2: { injection H as <- <-. eexists _, [], 0%nat. split; reflexivity. }
  apply save_loop_run in H. destruct H as (new & k & -> & _ & S & _).
  exists (EvMakedirs (output_dir a) :: new), items, k. split.
  - now rewrite <- app_assoc.
  - exact S.
Qed.

Lemma try_on_saved (E : Env) (self : VirtualTryOnAPI) (a : TryOnArgs)
    (h : Trace) r h' :
  try_on E self a h = (r, h') ->
  exists new items k,
    h' = (h ++ new)%list
    /\ saved_files new = paths_from a 0 (firstn k items).
Proof.
  unfold try_on, bind, ask. cbv beta iota. intros H.
  destruct (os_path_exists E h (person_image_path a)); cbv beta iota delta [negb] in H.
  2: { injection H as <- <-. exists [], [], 0%nat. now rewrite app_nil_r. }
  destruct (os_path_exists E h (product_image_path a)); cbv beta iota delta [negb] in H.
  2: { injection H as <- <-. exists [], [], 0%nat. now rewrite app_nil_r. }
  destruct (encode_image E (person_image_path a) h) as [[p|e] h1] eqn:He1;
    apply encode_image_trace in He1; subst h1.
  2: { injection H as <- <-. exists [], [], 0%nat. now rewrite app_nil_r. }
  destruct (encode_image E (product_image_path a) h) as [[q|e] h1] eqn:He2;
    apply encode_image_trace in He2; subst h1.
  2: { injection H as <- <-. exists [], [], 0%nat. now rewrite app_nil_r. }
  unfold lift in H.
  destruct (request_body a p q) as [body|e] eqn:Hb.
  2: { injection H as <- <-. exists [], [], 0%nat. now rewrite app_nil_r. }
  unfold print, act in H. cbv beta iota in H.
  destruct (session_post E _ (credentials self) (endpoint self) body) as [response|e].
  2: { injection H as <- <-. rewrite <- app_assoc.
       eexists _, [], 0%nat. split; reflexivity. }
  apply handle_response_saved in H. destruct H as (new & items & k & -> & S).
  exists (EvPrint (progress_message a) :: EvPost (endpoint self) body :: new), items, k.
  split; [now rewrite <- !app_assoc | exact S].
Qed.



(** C9, as the code has it. When the response has status 200, its JSON
    body is an object without a [predictions] key and the output directory
    can be created, [try_on] returns the empty list; it has printed its
    progress line, posted once and created the output directory, and has
    saved no file. *)
Theorem no_predictions_key (E : Env) (self : VirtualTryOnAPI) (a : TryOnArgs)
    (h : Trace) (body : json) (response : Response) (h1 : Trace)
    (d : list (string * json)) :
  answered E self a h body response h1 ->
  status_code response = 200%Z ->
  json_ response = Ok (JObj d) ->
  dict_get "predictions" d = None ->
  os_makedirs E (h1 ++ [EvMakedirs (output_dir a)])%list (output_dir a) = Ok tt ->
  let new := [EvPrint (progress_message a); EvPost (endpoint self) body;
              EvMakedirs (output_dir a)] in
  try_on E self a h = (Ok [], (h ++ new)%list)
  /\ saved_files new = [].
Proof.
  intros Ha Hs Hj Hd Hm new. split; [|reflexivity].
  rewrite (try_on_answered _ _ _ _ _ _ _ Ha).
  destruct Ha as (d1 & d2 & _ & _ & _ & _ & _ & Hh & _).
  unfold handle_response, raise, bind, lift, act.
  rewrite Hs, Hj. cbn [Z.eqb Pos.eqb negb]. rewrite Hm.
  cbn [py_get]. rewrite Hd. cbn [py_iter save_loop ret].
  rewrite Hh, <- app_assoc. reflexivity.
Qed.

Lemma no_predictions_key_witness :
  let new := [EvPrint (progress_message main_args);
              EvPost (endpoint demo_api) (demo_body main_args);
              EvMakedirs (output_dir main_args)] in
  try_on (demo_env (Ok bare_response)) demo_api main_args []
  = (Ok [], ([] ++ new)%list)
  /\ saved_files new = [].
Proof.
  apply (no_predictions_key (demo_env (Ok bare_response)) demo_api main_args []
           (demo_body main_args) bare_response (demo_sent main_args) []).
  - apply demo_answered; reflexivity.
  - reflexivity.
  - reflexivity.
  - reflexivity.
  - reflexivity.
Defined.

(** C9 does not hold as stated: a 200 response whose JSON body is an
    array has no [predictions] key, and [try_on] raises [AttributeError]
    on it, after creating the output directory; and on an object without
    the key it raises as well when the directory cannot be created. *)
Lemma no_predictions_key_may_fail :
  try_on (demo_env (Ok array_response)) demo_api main_args []
  = (Raise AttributeError,
     (demo_sent main_args ++ [EvMakedirs "./results"])%list)
  /\ try_on (locked_env (Ok bare_response)) demo_api main_args []
     = (Raise (ExternalError "PermissionError"),
        (demo_sent main_args ++ [EvMakedirs "./results"])%list).
Proof. split; vm_compute; reflexivity. Qed.







(** ** The model on the call of the [__main__] block *)

Example main_call_paths :
  fst (try_on (demo_env (Ok (ok_response
                 [demo_prediction "image/png"; demo_prediction "image/jpeg"])))
         demo_api main_args [])
  = Ok ["results/vton_person_dress_0.png"; "results/vton_person_dress_1.jpg"].
Proof. vm_compute. reflexivity. Qed.

Example main_call_saved :
  saved_files (snd (try_on (demo_env (Ok (ok_response
                 [demo_prediction "image/png"; demo_prediction "image/jpeg"])))
         demo_api main_args []))
  = ["results/vton_person_dress_0.png"; "results/vton_person_dress_1.jpg"].
Proof. vm_compute. reflexivity. Qed.

(** ** base64 on small inputs *)

Example b64_man : Utf8.decode (Base64.b64encode (list_byte_of_string "Man")) = Ok "TWFu".
Proof. reflexivity. Qed.
Example b64_ma : Utf8.decode (Base64.b64encode (list_byte_of_string "Ma")) = Ok "TWE=".
Proof. reflexivity. Qed.
Example b64_m : Utf8.decode (Base64.b64encode (list_byte_of_string "M")) = Ok "TQ==".
Proof. reflexivity. Qed.
Example b64_dec : Base64.b64decode "TW
E=" = Ok (list_byte_of_string "Ma").
Proof. reflexivity. Qed.
Example b64_dec_bad : Base64.b64decode "TWE" = Raise BinasciiError.
Proof. reflexivity. Qed.
Example b64_dec_bad1 : Base64.b64decode "T" = Raise BinasciiError.
Proof. reflexivity. Qed.
Example b64_dec_pad : Base64.b64decode "TQ==TQ==" = Ok (list_byte_of_string "M").
Proof. reflexivity. Qed.

(** * Further properties *)

(** ** Failures of the calls around the request *)

Lemma try_on_reaches_post (E : Env) (self : VirtualTryOnAPI) (a : TryOnArgs)
    (h : Trace) (body : json) (h1 : Trace) :
  reaches_post E self a h body h1 ->
  try_on E self a h
  = match session_post E h1 (credentials self) (endpoint self) body with
    | Ok response => handle_response E a response h1
    | Raise e => (Raise e, h1)
    end.
Proof.
  intros (d1 & d2 & Hp & Hq & Hr1 & Hr2 & Hb & Hh).
  unfold try_on, bind, ask. cbv beta iota.
  rewrite Hp. cbv beta iota delta [negb]. rewrite Hq. cbv beta iota delta [negb].
  rewrite (encode_image_run E _ h d1 Hr1). cbv beta iota.
  rewrite (encode_image_run E _ h d2 Hr2). cbv beta iota.
  unfold lift. rewrite Hb. unfold print, act. cbv beta iota.
  rewrite <- app_assoc. cbn [app]. rewrite <- Hh.
  destruct (session_post E h1 (credentials self) (endpoint self) body); reflexivity.
Qed.

(** In the fixed worlds a call with the two demo images gets to post. *)
Lemma fixed_reaches_post auth post mkdirs open_image save (a : TryOnArgs) :
  person_image_path a = "./images/person.png" ->
  product_image_path a = "./images/dress.png" ->
  reaches_post (fixed_env auth demo_read post mkdirs open_image save) demo_api a []
    (demo_body a) (demo_sent a).
Proof.
  intros Hp Hq. exists demo_person, demo_product.
  rewrite Hp, Hq. repeat split; try reflexivity.
  unfold demo_body.
  destruct (request_body_total a (base64_text demo_person) (base64_text demo_product))
    as (body & ->).
  reflexivity.
Qed.

Lemma fixed_answered auth resp mkdirs open_image save (a : TryOnArgs) :
  person_image_path a = "./images/person.png" ->
  product_image_path a = "./images/dress.png" ->
  answered (fixed_env auth demo_read (Ok resp) mkdirs open_image save) demo_api a []
    (demo_body a) resp (demo_sent a).
Proof.
  intros Hp Hq. exists demo_person, demo_product.
  rewrite Hp, Hq. repeat split; try reflexivity.
  unfold demo_body.
  destruct (request_body_total a (base64_text demo_person) (base64_text demo_product))
    as (body & ->).
  reflexivity.
Qed.

(** X1. When both paths exist but reading one of the two files raises, the
    exception reaches the caller of [try_on] and nothing has been printed
    or posted. *)
Theorem read_failure_propagates (E : Env) (self : VirtualTryOnAPI)
    (a : TryOnArgs) (h : Trace) (e : PyExc) :
  os_path_exists E h (person_image_path a) = true ->
  os_path_exists E h (product_image_path a) = true ->
  open_rb_read E h (person_image_path a) = Raise e
  \/ (exists data, open_rb_read E h (person_image_path a) = Ok data
                   /\ open_rb_read E h (product_image_path a) = Raise e) ->
  try_on E self a h = (Raise e, h).
Proof.
  intros Hp Hq Hr. unfold try_on, bind, ask. cbv beta iota.
  rewrite Hp. cbv beta iota delta [negb]. rewrite Hq. cbv beta iota delta [negb].
  destruct Hr as [Hr | (data & Hr1 & Hr2)].
  - unfold encode_image at 1. unfold bind. rewrite Hr. reflexivity.
  - rewrite (encode_image_run E _ h data Hr1). cbv beta iota.
    unfold encode_image, bind. rewrite Hr2. reflexivity.
Qed.

Lemma read_failure_propagates_witness :
  try_on (fixed_env demo_auth demo_read (Ok (ok_response [])) (Ok tt)
            (fun data => Ok (mk_image data)) (Ok tt))
    demo_api (default_args "./images/person.png" "./images") []
  = (Raise (ExternalError "IsADirectoryError"), []).
Proof.
  apply (read_failure_propagates
           (fixed_env demo_auth demo_read (Ok (ok_response [])) (Ok tt)
              (fun data => Ok (mk_image data)) (Ok tt))
           demo_api (default_args "./images/person.png" "./images") []
           (ExternalError "IsADirectoryError")).
  - reflexivity.
  - reflexivity.
  - right. exists demo_person. split; reflexivity.
Defined.

(** X2. When the POST itself raises, the exception reaches the caller;
    the call has printed its progress line and posted once, and has
    created no directory and saved no file. *)
Theorem post_failure_propagates (E : Env) (self : VirtualTryOnAPI)
    (a : TryOnArgs) (h : Trace) (body : json) (h1 : Trace) (e : PyExc) :
  reaches_post E self a h body h1 ->
  session_post E h1 (credentials self) (endpoint self) body = Raise e ->
  let new := [EvPrint (progress_message a); EvPost (endpoint self) body] in
  try_on E self a h = (Raise e, (h ++ new)%list)
  /\ made_dirs new = [] /\ saved_files new = [].
Proof.
  intros Hr He new. split; [|split; reflexivity].
  rewrite (try_on_reaches_post _ _ _ _ _ _ Hr), He.
  destruct Hr as (d1 & d2 & _ & _ & _ & _ & _ & ->). reflexivity.
Qed.

Lemma post_failure_propagates_witness :
  let new := [EvPrint (progress_message main_args);
              EvPost (endpoint demo_api) (demo_body main_args)] in
  try_on (fixed_env demo_auth demo_read (Raise (ExternalError "ConnectionError"))
            (Ok tt) (fun data => Ok (mk_image data)) (Ok tt))
    demo_api main_args []
  = (Raise (ExternalError "ConnectionError"), ([] ++ new)%list)
  /\ made_dirs new = [] /\ saved_files new = [].
Proof.
  apply (post_failure_propagates
           (fixed_env demo_auth demo_read (Raise (ExternalError "ConnectionError"))
              (Ok tt) (fun data => Ok (mk_image data)) (Ok tt))
           demo_api main_args [] (demo_body main_args) (demo_sent main_args)
           (ExternalError "ConnectionError")).
  - apply fixed_reaches_post; reflexivity.
  - reflexivity.
Defined.

(** X3. When a 200 response has a body that [response.json()] rejects, the
    exception reaches the caller before the output directory is created:
    the trace ends with the POST. *)
Theorem invalid_json_propagates (E : Env) (self : VirtualTryOnAPI)
    (a : TryOnArgs) (h : Trace) (body : json) (response : Response) (h1 : Trace)
    (e : PyExc) :
  answered E self a h body response h1 ->
  status_code response = 200%Z ->
  json_ response = Raise e ->
  try_on E self a h
  = (Raise e, (h ++ [EvPrint (progress_message a); EvPost (endpoint self) body])%list).
Proof.
  intros Ha Hs Hj. rewrite (try_on_answered _ _ _ _ _ _ _ Ha).
  destruct Ha as (d1 & d2 & _ & _ & _ & _ & _ & -> & _).
  unfold handle_response, bind, lift. rewrite Hs, Hj. reflexivity.
Qed.

Lemma invalid_json_propagates_witness :
  try_on (fixed_env demo_auth demo_read
            (Ok (mk_response 200 "<html>" (Raise (ExternalError "JSONDecodeError"))))
            (Ok tt) (fun data => Ok (mk_image data)) (Ok tt))
    demo_api main_args []
  = (Raise (ExternalError "JSONDecodeError"),
     ([] ++ [EvPrint (progress_message main_args);
             EvPost (endpoint demo_api) (demo_body main_args)])%list).
Proof.
  apply (invalid_json_propagates
           (fixed_env demo_auth demo_read
              (Ok (mk_response 200 "<html>" (Raise (ExternalError "JSONDecodeError"))))
              (Ok tt) (fun data => Ok (mk_image data)) (Ok tt))
           demo_api main_args [] (demo_body main_args)
           (mk_response 200 "<html>" (Raise (ExternalError "JSONDecodeError")))
           (demo_sent main_args) (ExternalError "JSONDecodeError")).
  - apply fixed_answered; reflexivity.
  - reflexivity.
  - reflexivity.
Defined.

(** X4. When a 200 response parses but the output directory cannot be
    created, the exception of [os.makedirs] reaches the caller and no file
    is saved, whatever the predictions are. *)
Theorem makedirs_failure_propagates (E : Env) (self : VirtualTryOnAPI)
    (a : TryOnArgs) (h : Trace) (body : json) (response : Response) (h1 : Trace)
    (result : json) (e : PyExc) :
  answered E self a h body response h1 ->
  status_code response = 200%Z ->
  json_ response = Ok result ->
  os_makedirs E (h1 ++ [EvMakedirs (output_dir a)])%list (output_dir a) = Raise e ->
  let new := [EvPrint (progress_message a); EvPost (endpoint self) body;
              EvMakedirs (output_dir a)] in
  try_on E self a h = (Raise e, (h ++ new)%list)
  /\ saved_files new = [].
Proof.
  intros Ha Hs Hj Hm new. split; [|reflexivity].
  rewrite (try_on_answered _ _ _ _ _ _ _ Ha).
  destruct Ha as (d1 & d2 & _ & _ & _ & _ & _ & Hh & _).
  unfold handle_response, bind, lift, act. rewrite Hs, Hj.
  cbn [Z.eqb Pos.eqb negb]. rewrite Hm, Hh, <- app_assoc. reflexivity.
Qed.

Lemma makedirs_failure_propagates_witness :
  let new := [EvPrint (progress_message main_args);
              EvPost (endpoint demo_api) (demo_body main_args);
              EvMakedirs (output_dir main_args)] in
  try_on (fixed_env demo_auth demo_read
            (Ok (ok_response [demo_prediction "image/png"]))
            (Raise (ExternalError "PermissionError"))
            (fun data => Ok (mk_image data)) (Ok tt))
    demo_api main_args []
  = (Raise (ExternalError "PermissionError"), ([] ++ new)%list)
  /\ saved_files new = [].
Proof.
  apply (makedirs_failure_propagates
           (fixed_env demo_auth demo_read
              (Ok (ok_response [demo_prediction "image/png"]))
              (Raise (ExternalError "PermissionError"))
              (fun data => Ok (mk_image data)) (Ok tt))
           demo_api main_args [] (demo_body main_args)
           (ok_response [demo_prediction "image/png"]) (demo_sent main_args)
           (JObj [("predictions", JArr [demo_prediction "image/png"])])
           (ExternalError "PermissionError")).
  - apply fixed_answered; reflexivity.
  - reflexivity.
  - reflexivity.
  - reflexivity.
Defined.

(** ** Responses of an unexpected shape *)

(** X5. When the JSON body of a 200 response is not an object, [try_on]
    raises [AttributeError]; the output directory has been created by
    then, and no file is saved. *)
Theorem non_object_body_raises (E : Env) (self : VirtualTryOnAPI)
    (a : TryOnArgs) (h : Trace) (body : json) (response : Response) (h1 : Trace)
    (result : json) :
  answered E self a h body response h1 ->
  status_code response = 200%Z ->
  json_ response = Ok result ->
  (forall d, result <> JObj d) ->
  os_makedirs E (h1 ++ [EvMakedirs (output_dir a)])%list (output_dir a) = Ok tt ->
  let new := [EvPrint (progress_message a); EvPost (endpoint self) body;
              EvMakedirs (output_dir a)] in
  try_on E self a h = (Raise AttributeError, (h ++ new)%list)
  /\ made_dirs new = [output_dir a]
  /\ saved_files new = [].
Proof.
  intros Ha Hs Hj Hn Hm new. split; [|split; reflexivity].
  rewrite (try_on_answered _ _ _ _ _ _ _ Ha).
  destruct Ha as (d1 & d2 & _ & _ & _ & _ & _ & Hh & _).
  unfold handle_response, bind, lift, act. rewrite Hs, Hj.
  cbn [Z.eqb Pos.eqb negb]. rewrite Hm.
  destruct result; try (exfalso; eapply Hn; reflexivity);
    cbn [py_get]; rewrite Hh, <- app_assoc; reflexivity.
Qed.

Lemma non_object_body_raises_witness :
  let new := [EvPrint (progress_message main_args);
              EvPost (endpoint demo_api) (demo_body main_args);
              EvMakedirs (output_dir main_args)] in
  try_on (demo_env (Ok (mk_response 200 "null" (Ok JNull)))) demo_api main_args []
  = (Raise AttributeError, ([] ++ new)%list)
  /\ made_dirs new = [output_dir main_args]
  /\ saved_files new = [].
Proof.
  apply (non_object_body_raises (demo_env (Ok (mk_response 200 "null" (Ok JNull))))
           demo_api main_args [] (demo_body main_args)
           (mk_response 200 "null" (Ok JNull)) (demo_sent main_args) JNull).
  - apply demo_answered; reflexivity.
  - reflexivity.
  - reflexivity.
  - discriminate.
  - reflexivity.
Defined.

Lemma code_points_not_empty (c : ascii) (s : string) :
  exists w ws, code_points (String c s) = w :: ws.
Proof.
  cbn [code_points]. destruct (is_continuation s); [|eauto].
  destruct (code_points s); eauto.
Qed.

Lemma save_loop_on_string (E : Env) (a : TryOnArgs) (i : nat) (w : string)
    (rest : list json) (saved : list string) (h : Trace) :
  save_loop E a i (JStr w :: rest) saved h = (Raise TypeError, h).
Proof. reflexivity. Qed.

(** X6. When the [predictions] of a 200 response is not a list, no file
    is saved: [try_on] raises [TypeError] on [null], a boolean, a number,
    a non-empty string or a non-empty object, and returns the empty list
    on an empty string or an empty object. *)
Theorem predictions_not_a_list (E : Env) (self : VirtualTryOnAPI)
    (a : TryOnArgs) (h : Trace) (body : json) (response : Response) (h1 : Trace)
    (d : list (string * json)) (v : json) :
  answered E self a h body response h1 ->
  status_code response = 200%Z ->
  json_ response = Ok (JObj d) ->
  dict_get "predictions" d = Some v ->
  (forall items, v <> JArr items) ->
  os_makedirs E (h1 ++ [EvMakedirs (output_dir a)])%list (output_dir a) = Ok tt ->
  let new := [EvPrint (progress_message a); EvPost (endpoint self) body;
              EvMakedirs (output_dir a)] in
  try_on E self a h
  = ((if empty_iterable v then Ok [] else Raise TypeError), (h ++ new)%list)
  /\ saved_files new = [].
Proof.
  intros Ha Hs Hj Hd Hn Hm new. split; [|reflexivity].
  rewrite (try_on_answered _ _ _ _ _ _ _ Ha).
  destruct Ha as (d1 & d2 & _ & _ & _ & _ & _ & Hh & _).
  unfold handle_response, bind, lift, act. rewrite Hs, Hj.
  cbn [Z.eqb Pos.eqb negb]. rewrite Hm. cbn [py_get]. rewrite Hd.
  rewrite Hh, <- app_assoc. cbn [app].
  destruct v as [| | |s|items|fields]; try reflexivity.
  - destruct s as [|c s]; [reflexivity|].
    cbn [py_iter empty_iterable].
    destruct (code_points_not_empty c s) as (w & ws & ->).
    cbn [map]. now rewrite save_loop_on_string.
  - exfalso. eapply Hn. reflexivity.
  - destruct fields as [|[k x] fields]; reflexivity.
Qed.

Lemma predictions_not_a_list_witness :
  let new := [EvPrint (progress_message main_args);
              EvPost (endpoint demo_api) (demo_body main_args);
              EvMakedirs (output_dir main_args)] in
  try_on (demo_env (Ok (mk_response 200 ""
                          (Ok (JObj [("predictions", JStr "aGVsbG8=")])))))
    demo_api main_args []
  = ((if empty_iterable (JStr "aGVsbG8=") then Ok [] else Raise TypeError),
     ([] ++ new)%list)
  /\ saved_files new = [].
Proof.
  apply (predictions_not_a_list
           (demo_env (Ok (mk_response 200 ""
                            (Ok (JObj [("predictions", JStr "aGVsbG8=")])))))
           demo_api main_args [] (demo_body main_args)
           (mk_response 200 "" (Ok (JObj [("predictions", JStr "aGVsbG8=")])))
           (demo_sent main_args) [("predictions", JStr "aGVsbG8=")]
           (JStr "aGVsbG8=")).
  - apply demo_answered; reflexivity.
  - reflexivity.
  - reflexivity.
  - reflexivity.
  - discriminate.
  - reflexivity.
Defined.

(** ** A prediction that cannot be saved *)


Lemma undecodable_no_image (E : Env) (p : json) (e : PyExc) :
  undecodable E p e <-> prediction_image E p = Raise e.
Proof.
  unfold undecodable, prediction_image. split.
  - intros [H | [(b64 & H1 & H2) | (b64 & data & H1 & H2 & H3)]].
    + now rewrite H.
    + rewrite H1. cbn [res_bind]. now rewrite H2.
    + rewrite H1. cbn [res_bind]. rewrite H2. exact H3.
  - intros H.
    destruct (py_getitem p "bytesBase64Encoded") as [b64|e1]; cbn [res_bind] in H.
    2: { left. now injection H as ->. }
    destruct (py_b64decode b64) as [data|e2] eqn:H2; cbn [res_bind] in H.
    2: { right. left. exists b64. injection H as ->. auto. }
    right. right. exists b64, data. auto.
Qed.





(** ** The shape of a run *)

Lemma printed_app (t u : Trace) : printed (t ++ u)%list = (printed t ++ printed u)%list.
Proof.
  induction t as [|ev t IH]; [reflexivity|].
  destruct ev; cbn; now rewrite IH.
Qed.

(** A round of the loop that returns has saved one file and printed its line. *)
Lemma save_prediction_returns (E : Env) (a : TryOnArgs) (i : nat) (p : json)
    (h : Trace) (path : string) (h' : Trace) :
  save_prediction E a i p h = (Ok path, h') ->
  path = path_for a i p
  /\ exists img, h' = (h ++ [EvSave path img; EvPrint (saved_message path)])%list.
Proof.
  unfold save_prediction, print, bind, lift, act, ret. intros H.
  destruct (py_getitem p "bytesBase64Encoded") as [b64|e] eqn:Hg; [|discriminate].
  destruct (py_b64decode b64) as [data|e]; [|discriminate].
  destruct (Image_open E data) as [img|e]; [|discriminate].
  destruct p as [| | | | |d]; try discriminate.
  destruct (ext_of_mime d) as (m & Hm & Hext). rewrite Hm, Hext in H.
  fold (path_for a i (JObj d)) in H.
  destruct (Image_save E _ img (path_for a i (JObj d))); [|discriminate].
  injection H as <- <-. split; [reflexivity|].
  exists img. now rewrite <- app_assoc.
Qed.

Lemma save_loop_returns (E : Env) (a : TryOnArgs) (preds : list json) :
  forall (i : nat) (saved : list string) (h : Trace) paths h',
  save_loop E a i preds saved h = (Ok paths, h') ->
  exists new,
    h' = (h ++ new)%list
    /\ paths = (saved ++ paths_from a i preds)%list
    /\ saved_files new = paths_from a i preds
    /\ printed new = map saved_message (paths_from a i preds)
    /\ posts new = [] /\ made_dirs new = [].
Proof.
  induction preds as [|p preds IH]; intros i saved h paths h' H.
  - cbn in H. injection H as <- <-. exists []. rewrite !app_nil_r. repeat split.
  - cbn [save_loop] in H. unfold bind in H.
    destruct (save_prediction E a i p h) as [[path|e] h1] eqn:Hp; [|discriminate].
    apply save_prediction_returns in Hp. destruct Hp as (-> & img & ->).
    apply IH in H. destruct H as (new & -> & -> & S & P & Q & D).
    exists ([EvSave (path_for a i p) img; EvPrint (saved_message (path_for a i p))]
            ++ new)%list.
    rewrite <- !app_assoc. cbn [app paths_from map saved_files printed posts made_dirs].
    rewrite S, P, Q, D. repeat split.
Qed.

(** What a call that returns has done. *)
Lemma try_on_returned (E : Env) (self : VirtualTryOnAPI) (a : TryOnArgs)
    (h : Trace) (paths : list string) (new : Trace) :
  try_on E self a h = (Ok paths, (h ++ new)%list) ->
  (exists p q body,
     request_body a p q = Ok body /\ posts new = [(endpoint self, body)])
  /\ made_dirs new = [output_dir a]
  /\ saved_files new = paths
  /\ printed new = progress_message a :: map saved_message paths.
Proof.
  unfold try_on, bind, ask. cbv beta iota. intros H.
  destruct (os_path_exists E h (person_image_path a));
    cbv beta iota delta [negb] in H; [|discriminate].
  destruct (os_path_exists E h (product_image_path a));
    cbv beta iota delta [negb] in H; [|discriminate].
  destruct (encode_image E (person_image_path a) h) as [[p|e] h1] eqn:He1;
    apply encode_image_trace in He1; subst h1; [|discriminate].
  destruct (encode_image E (product_image_path a) h) as [[q|e] h1] eqn:He2;
    apply encode_image_trace in He2; subst h1; [|discriminate].
  unfold lift in H.
  destruct (request_body a p q) as [body|e] eqn:Hb; [|discriminate].
  unfold print, act in H. cbv beta iota in H.
  destruct (session_post E _ (credentials self) (endpoint self) body)
    as [response|e]; [|discriminate].
  unfold handle_response, raise, bind, lift, act in H.
  destruct (negb (status_code response =? 200)%Z); [discriminate|].
  destruct (json_ response) as [result|e]; [|discriminate].
  destruct (os_makedirs E _ (output_dir a)); [|discriminate].
  destruct (py_get result "predictions" (JArr [])) as [predictions|e]; [|discriminate].
  destruct (py_iter predictions) as [items|e]; [|discriminate].
  apply save_loop_returns in H. destruct H as (n & Heq & -> & S & P & Q & D).
  rewrite <- !app_assoc in Heq. apply app_inv_head in Heq. subst new.
  cbn [app posts made_dirs saved_files printed]. rewrite S, P, Q, D.
  split; [exists p, q, body; split; [exact Hb | reflexivity]|].
  repeat split.
Qed.

(** X8. A call that returns has done exactly this: printed the progress
    line, posted one request to the endpoint, created the output
    directory, and saved the returned paths in order, printing one line
    for each of them. *)
Theorem returned_run_shape (E : Env) (self : VirtualTryOnAPI) (a : TryOnArgs)
    (h : Trace) (paths : list string) (new : Trace) :
  try_on E self a h = (Ok paths, (h ++ new)%list) ->
  (exists p q body,
     request_body a p q = Ok body /\ posts new = [(endpoint self, body)])
  /\ made_dirs new = [output_dir a]
  /\ saved_files new = paths
  /\ printed new = progress_message a :: map saved_message paths.
Proof. exact (try_on_returned E self a h paths new). Qed.

Lemma returned_run_shape_witness :
  (exists p q body,
     request_body main_args p q = Ok body
     /\ posts (snd (try_on (demo_env (Ok (ok_response [demo_prediction "image/png"])))
                      demo_api main_args []))
        = [(endpoint demo_api, body)])
  /\ made_dirs (snd (try_on (demo_env (Ok (ok_response [demo_prediction "image/png"])))
                       demo_api main_args []))
     = [output_dir main_args]
  /\ saved_files (snd (try_on (demo_env (Ok (ok_response [demo_prediction "image/png"])))
                         demo_api main_args []))
     = ["results/vton_person_dress_0.png"]
  /\ printed (snd (try_on (demo_env (Ok (ok_response [demo_prediction "image/png"])))
                     demo_api main_args []))
     = progress_message main_args
       :: map saved_message ["results/vton_person_dress_0.png"].
Proof.
  apply (returned_run_shape
           (demo_env (Ok (ok_response [demo_prediction "image/png"])))
           demo_api main_args [] ["results/vton_person_dress_0.png"]
           (snd (try_on (demo_env (Ok (ok_response [demo_prediction "image/png"])))
                   demo_api main_args []))).
  vm_compute. reflexivity.
Defined.

(** Every run either stops before the request or starts with the progress
    line followed by the one POST. *)
Lemma try_on_shape (E : Env) (self : VirtualTryOnAPI) (a : TryOnArgs)
    (h : Trace) r h' :
  try_on E self a h = (r, h') ->
  h' = h
  \/ exists p q body rest,
       request_body a p q = Ok body
       /\ h' = (h ++ EvPrint (progress_message a)
                  :: EvPost (endpoint self) body :: rest)%list
       /\ posts rest = [].
Proof.
  unfold try_on, bind, ask. cbv beta iota. intros H.
  destruct (os_path_exists E h (person_image_path a)); cbv beta iota delta [negb] in H.
  2: { injection H as <- <-. now left. }
  destruct (os_path_exists E h (product_image_path a)); cbv beta iota delta [negb] in H.
  2: { injection H as <- <-. now left. }
  destruct (encode_image E (person_image_path a) h) as [[p|e] h1] eqn:He1;
    apply encode_image_trace in He1; subst h1.
  2: { injection H as <- <-. now left. }
  destruct (encode_image E (product_image_path a) h) as [[q|e] h1] eqn:He2;
    apply encode_image_trace in He2; subst h1.
  2: { injection H as <- <-. now left. }
  unfold lift in H.
  destruct (request_body a p q) as [body|e] eqn:Hb.
  2: { injection H as <- <-. now left. }
  unfold print, act in H. cbv beta iota in H. right. exists p, q, body.
  destruct (session_post E _ (credentials self) (endpoint self) body) as [response|e].
  2: { injection H as <- <-. exists []. rewrite <- app_assoc. repeat split; auto. }
  apply handle_response_trace in H. destruct H as (rest & -> & Hn).
  exists rest. rewrite <- !app_assoc. repeat split; auto.
Qed.

(** X9. Whatever happens, a call posts at most once and only to
    [self.endpoint]; when it posts, the progress line and the POST are the
    first two things it does. *)
Theorem posts_at_most_once (E : Env) (self : VirtualTryOnAPI) (a : TryOnArgs)
    (h : Trace) (r : Res (list string)) (new : Trace) :
  try_on E self a h = (r, (h ++ new)%list) ->
  (List.length (posts new) <= 1)%nat
  /\ forall url body,
       In (url, body) (posts new) ->
       url = endpoint self
       /\ exists rest,
            new = EvPrint (progress_message a) :: EvPost url body :: rest
            /\ posts rest = [].
Proof.
  intros H. apply try_on_shape in H.
  destruct H as [Heq | (p & q & body & rest & Hb & Heq & Hr)].
  - rewrite <- (app_nil_r h) in Heq at 2. apply app_inv_head in Heq. subst new.
    split; [cbn; lia | intros url body []].
  - apply app_inv_head in Heq. subst new. cbn [posts]. rewrite Hr.
    split; [cbn; lia|].
    intros url b [Hin | []]. injection Hin as <- <-.
    split; [reflexivity|]. exists rest. auto.
Qed.

Lemma posts_at_most_once_witness :
  (List.length (posts (snd (demo_run main_args))) <= 1)%nat
  /\ forall url body,
       In (url, body) (posts (snd (demo_run main_args))) ->
       url = endpoint demo_api
       /\ exists rest,
            snd (demo_run main_args)
            = EvPrint (progress_message main_args) :: EvPost url body :: rest
            /\ posts rest = [].
Proof.
  apply (posts_at_most_once (demo_env (demo_ok_response [])) demo_api main_args []
           (fst (demo_run main_args)) (snd (demo_run main_args))).
  vm_compute. reflexivity.
Defined.

(** ** What is posted *)

Lemma encode_image_returns (E : Env) (path : string) (h : Trace)
    (txt : string) (h' : Trace) :
  encode_image E path h = (Ok txt, h') ->
  exists data, open_rb_read E h path = Ok data /\ txt = base64_text data.
Proof.
  unfold encode_image, bind, lift. intros H.
  destruct (open_rb_read E h path) as [data|e]; [|discriminate].
  rewrite utf8_decode_b64encode in H. injection H as <- <-. eauto.
Qed.

Lemma try_on_shape_files (E : Env) (self : VirtualTryOnAPI) (a : TryOnArgs)
    (h : Trace) r h' :
  try_on E self a h = (r, h') ->
  h' = h
  \/ exists d1 d2 body rest,
       open_rb_read E h (person_image_path a) = Ok d1
       /\ open_rb_read E h (product_image_path a) = Ok d2
       /\ request_body a (base64_text d1) (base64_text d2) = Ok body
       /\ h' = (h ++ EvPrint (progress_message a)
                  :: EvPost (endpoint self) body :: rest)%list
       /\ posts rest = [].
Proof.
  unfold try_on, bind, ask. cbv beta iota. intros H.
  destruct (os_path_exists E h (person_image_path a)); cbv beta iota delta [negb] in H.
  2: { injection H as <- <-. now left. }
  destruct (os_path_exists E h (product_image_path a)); cbv beta iota delta [negb] in H.
  2: { injection H as <- <-. now left. }
  destruct (encode_image E (person_image_path a) h) as [[p|e] h1] eqn:He1;
    pose proof (encode_image_trace _ _ _ _ _ He1); subst h1.
  2: { injection H as <- <-. now left. }
  destruct (encode_image E (product_image_path a) h) as [[q|e] h1] eqn:He2;
    pose proof (encode_image_trace _ _ _ _ _ He2); subst h1.
  2: { injection H as <- <-. now left. }
  apply encode_image_returns in He1. destruct He1 as (d1 & Hr1 & ->).
  apply encode_image_returns in He2. destruct He2 as (d2 & Hr2 & ->).
  unfold lift in H.
  destruct (request_body a (base64_text d1) (base64_text d2)) as [body|e] eqn:Hb.
  2: { injection H as <- <-. now left. }
  unfold print, act in H. cbv beta iota in H. right. exists d1, d2, body.
  destruct (session_post E _ (credentials self) (endpoint self) body) as [response|e].
  2: { injection H as <- <-. exists []. rewrite <- app_assoc. repeat split; auto. }
  apply handle_response_trace in H. destruct H as (rest & -> & Hn).
  exists rest. rewrite <- !app_assoc. repeat split; auto.
Qed.

(** What a call posts is built from the bytes of the two files. *)
Lemma posted_from_files (E : Env) (self : VirtualTryOnAPI) (a : TryOnArgs)
    (h : Trace) r (new : Trace) (url : string) (body : json) :
  try_on E self a h = (r, (h ++ new)%list) ->
  In (url, body) (posts new) ->
  exists d1 d2,
    open_rb_read E h (person_image_path a) = Ok d1
    /\ open_rb_read E h (product_image_path a) = Ok d2
    /\ request_body a (base64_text d1) (base64_text d2) = Ok body.
Proof.
  intros H Hin. apply try_on_shape_files in H.
  destruct H as [Heq | (d1 & d2 & body' & rest & H1 & H2 & Hb & Heq & Hr)].
  - rewrite <- (app_nil_r h) in Heq at 2. apply app_inv_head in Heq. subst new.
    destruct Hin.
  - apply app_inv_head in Heq. subst new. cbn [posts] in Hin. rewrite Hr in Hin.
    destruct Hin as [Hin | []]. injection Hin as <- <-. eauto.
Qed.

Lemma request_body_payloads (a : TryOnArgs) (p q : string) (body : json) :
  request_body a p q = Ok body ->
  json_at person_payload body = Some (JStr p)
  /\ json_at product_payload body = Some (JStr q)
  /\ option_map json_len (json_at [Key "instances"] body) = Some (Some 1%nat)
  /\ option_map json_len (json_at [Key "instances"; Idx 0; Key "productImages"] body)
     = Some (Some 1%nat).
Proof. intros H. body_cases H; repeat split; reflexivity. Qed.

(** X10. Whatever a call posts holds one instance with one person image
    and one product image, and the two payloads decode, by base64, to the
    bytes of the person file and of the product file. *)
Theorem payloads_decode_to_files (E : Env) (self : VirtualTryOnAPI)
    (a : TryOnArgs) (h : Trace) (r : Res (list string)) (new : Trace)
    (url : string) (body : json) :
  try_on E self a h = (r, (h ++ new)%list) ->
  In (url, body) (posts new) ->
  exists d1 d2 t1 t2,
    open_rb_read E h (person_image_path a) = Ok d1
    /\ open_rb_read E h (product_image_path a) = Ok d2
    /\ json_at person_payload body = Some (JStr t1)
    /\ Base64.b64decode t1 = Ok d1
    /\ json_at product_payload body = Some (JStr t2)
    /\ Base64.b64decode t2 = Ok d2
    /\ option_map json_len (json_at [Key "instances"] body) = Some (Some 1%nat)
    /\ option_map json_len
         (json_at [Key "instances"; Idx 0; Key "productImages"] body)
       = Some (Some 1%nat).
Proof.
  intros H Hin.
  destruct (posted_from_files E self a h r new url body H Hin)
    as (d1 & d2 & H1 & H2 & Hb).
  destruct (request_body_payloads a _ _ body Hb) as (P1 & P2 & L1 & L2).
  exists d1, d2, (base64_text d1), (base64_text d2).
  repeat split; auto using b64decode_base64_text.
Qed.

Lemma payloads_decode_to_files_witness :
  exists d1 d2 t1 t2,
    open_rb_read (demo_env (demo_ok_response [])) [] (person_image_path main_args)
    = Ok d1
    /\ open_rb_read (demo_env (demo_ok_response [])) [] (product_image_path main_args)
       = Ok d2
    /\ json_at person_payload (demo_body main_args) = Some (JStr t1)
    /\ Base64.b64decode t1 = Ok d1
    /\ json_at product_payload (demo_body main_args) = Some (JStr t2)
    /\ Base64.b64decode t2 = Ok d2
    /\ option_map json_len (json_at [Key "instances"] (demo_body main_args))
       = Some (Some 1%nat)
    /\ option_map json_len
         (json_at [Key "instances"; Idx 0; Key "productImages"] (demo_body main_args))
       = Some (Some 1%nat).
Proof.
  apply (payloads_decode_to_files (demo_env (demo_ok_response [])) demo_api
           main_args [] (fst (demo_run main_args)) (snd (demo_run main_args))
           (endpoint demo_api) (demo_body main_args)).
  - vm_compute. reflexivity.
  - vm_compute. left. reflexivity.
Defined.

Lemma request_body_options (a : TryOnArgs) (p q : string) (body : json) :
  request_body a p q = Ok body ->
  json_lookup ["parameters"; "addWatermark"] body = Some (JBool (add_watermark a))
  /\ json_lookup ["parameters"; "personGeneration"] body
     = Some (JStr (person_generation a))
  /\ json_lookup ["parameters"; "safetySetting"] body
     = Some (JStr (safety_setting a))
  /\ json_lookup ["parameters"; "outputOptions"; "mimeType"] body
     = Some (JStr (output_mime_type a)).
Proof. intros H. body_cases H; repeat split; reflexivity. Qed.

(** X11. Whatever a call posts carries [add_watermark],
    [person_generation], [safety_setting] and [output_mime_type] as they
    were given, whatever their values: none of them is checked against
    the values the docstring lists. *)
Theorem options_sent_as_given (E : Env) (self : VirtualTryOnAPI)
    (a : TryOnArgs) (h : Trace) (r : Res (list string)) (new : Trace)
    (url : string) (body : json) :
  try_on E self a h = (r, (h ++ new)%list) ->
  In (url, body) (posts new) ->
  json_lookup ["parameters"; "addWatermark"] body = Some (JBool (add_watermark a))
  /\ json_lookup ["parameters"; "personGeneration"] body
     = Some (JStr (person_generation a))
  /\ json_lookup ["parameters"; "safetySetting"] body
     = Some (JStr (safety_setting a))
  /\ json_lookup ["parameters"; "outputOptions"; "mimeType"] body
     = Some (JStr (output_mime_type a)).
Proof.
  intros H Hin. destruct (posted_body _ _ _ _ _ _ _ _ H Hin) as (_ & p & q & Hb).
  exact (request_body_options a p q body Hb).
Qed.

Lemma options_sent_as_given_witness :
  json_lookup ["parameters"; "addWatermark"] (demo_body odd_args) = Some (JBool true)
  /\ json_lookup ["parameters"; "personGeneration"] (demo_body odd_args)
     = Some (JStr "anyone")
  /\ json_lookup ["parameters"; "safetySetting"] (demo_body odd_args)
     = Some (JStr "")
  /\ json_lookup ["parameters"; "outputOptions"; "mimeType"] (demo_body odd_args)
     = Some (JStr "image/gif").
Proof.
  apply (options_sent_as_given (demo_env (demo_ok_response [])) demo_api
           odd_args [] (fst (demo_run odd_args)) (snd (demo_run odd_args))
           (endpoint demo_api) (demo_body odd_args)).
  - vm_compute. reflexivity.
  - vm_compute. left. reflexivity.
Defined.

Lemma request_body_optional_keys (a : TryOnArgs) (p q : string) (body : json) :
  request_body a p q = Ok body ->
  json_lookup ["parameters"; "seed"] body = option_map JInt (seed a)
  /\ json_lookup ["parameters"; "outputOptions"; "compressionQuality"] body
     = match compression_quality a with
       | Some c =>
           if negb (c =? 0)%Z && String.eqb (output_mime_type a) "image/jpeg"
           then Some (JInt c) else None
       | None => None
       end.
Proof.
  intros H. body_cases H; split; try reflexivity.
  all: cbn; repeat match goal with
                   | |- context [(?c =? 0)%Z] => destruct (Z.eqb_spec c 0)
                   | |- context [String.eqb ?x "image/jpeg"] =>
                       destruct (String.eqb_spec x "image/jpeg")
                   end; cbn; congruence.
Qed.

(** X12. Whatever a call posts has [parameters.seed] exactly when [seed]
    is not [None], and [parameters.outputOptions.compressionQuality]
    exactly when [compression_quality] is a non-zero number and
    [output_mime_type] is the string [image/jpeg]; the values are the
    arguments, negative or above 100 as they may be. *)
Theorem optional_keys_characterised (E : Env) (self : VirtualTryOnAPI)
    (a : TryOnArgs) (h : Trace) (r : Res (list string)) (new : Trace)
    (url : string) (body : json) :
  try_on E self a h = (r, (h ++ new)%list) ->
  In (url, body) (posts new) ->
  json_lookup ["parameters"; "seed"] body = option_map JInt (seed a)
  /\ json_lookup ["parameters"; "outputOptions"; "compressionQuality"] body
     = match compression_quality a with
       | Some c =>
           if negb (c =? 0)%Z && String.eqb (output_mime_type a) "image/jpeg"
           then Some (JInt c) else None
       | None => None
       end.
Proof.
  intros H Hin. destruct (posted_body _ _ _ _ _ _ _ _ H Hin) as (_ & p & q & Hb).
  exact (request_body_optional_keys a p q body Hb).
Qed.

Lemma optional_keys_characterised_witness :
  json_lookup ["parameters"; "seed"] (demo_body (jpeg_args (Some (-7)%Z) (Some (-1)%Z)))
  = option_map JInt (Some (-1)%Z)
  /\ json_lookup ["parameters"; "outputOptions"; "compressionQuality"]
       (demo_body (jpeg_args (Some (-7)%Z) (Some (-1)%Z)))
     = Some (JInt (-7)).
Proof.
  apply (optional_keys_characterised (demo_env (demo_ok_response [])) demo_api
           (jpeg_args (Some (-7)%Z) (Some (-1)%Z)) []
           (fst (demo_run (jpeg_args (Some (-7)%Z) (Some (-1)%Z))))
           (snd (demo_run (jpeg_args (Some (-7)%Z) (Some (-1)%Z))))
           (endpoint demo_api) (demo_body (jpeg_args (Some (-7)%Z) (Some (-1)%Z)))).
  - vm_compute. reflexivity.
  - vm_compute. left. reflexivity.
Defined.

(** ** The encoded images *)

Lemma string_of_list_byte_length (l : bytes) :
  String.length (string_of_list_byte l) = List.length l.
Proof. induction l as [|b l IH]; cbn; [reflexivity | now rewrite <- IH]. Qed.

Lemma b2a_base64_length (data : bytes) :
  List.length (Base64.b2a_base64 data) = (4 * ((List.length data + 2) / 3))%nat.
Proof.
  induction data as [|x|x y|x y z rest IH] using Base64Facts.by_groups;
    try reflexivity.
  change (Base64.b2a_base64 (x :: y :: z :: rest))
    with (Base64.b2a (N.shiftr (Byte.to_N x) 2)
          :: Base64.b2a (N.lor (N.shiftl (N.land (Byte.to_N x) 3) 4)
                           (N.shiftr (Byte.to_N y) 4))
          :: Base64.b2a (N.lor (N.shiftl (N.land (Byte.to_N y) 15) 2)
                           (N.shiftr (Byte.to_N z) 6))
          :: Base64.b2a (N.land (Byte.to_N z) 63)
          :: Base64.b2a_base64 rest).
  cbn [List.length]. rewrite IH.
  replace (S (S (S (List.length rest))) + 2)%nat
    with (List.length rest + 2 + 1 * 3)%nat by lia.
  rewrite Nat.div_add by lia. lia.
Qed.

Lemma in_alphabet_b2a (n : N) :
  (n < 64)%N -> Base64.in_alphabet (Base64.b2a n) = true.
Proof.
  intros H.
  assert (Hall : forallb (fun n => Base64.in_alphabet (Base64.b2a n)) (below 64) = true)
    by (vm_compute; reflexivity).
  exact (forall_below _ 64 Hall n H).
Qed.

Lemma b2a_base64_alphabet (data : bytes) :
  forallb Base64.in_alphabet (Base64.b2a_base64 data) = true.
Proof.
  induction data as [|x|x y|x y z rest IH] using Base64Facts.by_groups.
  - reflexivity.
  - destruct (Base64Facts.sextet_props _ _ (Base64Facts.to_N_lt x) (Base64Facts.to_N_lt x))
      as (X0 & _ & _ & _ & X4 & _).
    cbn [Base64.b2a_base64 forallb]. now rewrite !in_alphabet_b2a.
  - destruct (Base64Facts.sextet_props _ _ (Base64Facts.to_N_lt x) (Base64Facts.to_N_lt y))
      as (X0 & X1 & _).
    destruct (Base64Facts.sextet_props _ _ (Base64Facts.to_N_lt y) (Base64Facts.to_N_lt y))
      as (_ & _ & _ & _ & _ & Y5 & _).
    unfold Base64.sx1 in *. cbn [Base64.b2a_base64 forallb].
    now rewrite !in_alphabet_b2a.
  - destruct (Base64Facts.sextet_props _ _ (Base64Facts.to_N_lt x) (Base64Facts.to_N_lt y))
      as (X0 & X1 & _).
    destruct (Base64Facts.sextet_props _ _ (Base64Facts.to_N_lt y) (Base64Facts.to_N_lt z))
      as (_ & _ & Y2 & _).
    destruct (Base64Facts.sextet_props _ _ (Base64Facts.to_N_lt z) (Base64Facts.to_N_lt z))
      as (_ & _ & _ & Z3 & _).
    unfold Base64.sx1, Base64.sx2 in *. cbn [Base64.b2a_base64 forallb].
    now rewrite !in_alphabet_b2a, IH.
Qed.

(** X13. [encode_image] raises only what reading the file raises: the
    base64 text of any bytes decodes as UTF-8, so the encoding step never
    fails; and it leaves no mark in the trace. *)
Theorem encode_image_fails_only_on_read (E : Env) (path : string) (h : Trace) :
  snd (encode_image E path h) = h
  /\ forall e, fst (encode_image E path h) = Raise e
               <-> open_rb_read E h path = Raise e.
Proof.
  unfold encode_image, bind, lift.
  destruct (open_rb_read E h path) as [data|e0].
  - rewrite utf8_decode_b64encode. cbn. split; [reflexivity|].
    intros e. split; discriminate.
  - cbn. split; [reflexivity|]. intros e. split; intros [= ->]; reflexivity.
Qed.

(** X14. For a file of [n] bytes [encode_image] returns a text of
    [4 * ceil(n / 3)] characters, each of them a letter, a digit, [+],
    [/] or the pad [=]. *)
Theorem encoded_text_size (E : Env) (path : string) (h : Trace) (data : bytes) :
  open_rb_read E h path = Ok data ->
  exists txt,
    encode_image E path h = (Ok txt, h)
    /\ String.length txt = (4 * ((List.length data + 2) / 3))%nat
    /\ forallb Base64.in_alphabet (list_byte_of_string txt) = true.
Proof.
  intros H. exists (base64_text data). split; [now apply encode_image_run|].
  unfold base64_text, Base64.b64encode. split.
  - rewrite string_of_list_byte_length. apply b2a_base64_length.
  - rewrite list_byte_of_string_of_list_byte. apply b2a_base64_alphabet.
Qed.

Lemma encoded_text_size_witness :
  exists txt,
    encode_image (demo_env (demo_ok_response [])) "./images/dress.png" []
    = (Ok txt, [])
    /\ String.length txt = (4 * ((List.length demo_product + 2) / 3))%nat
    /\ forallb Base64.in_alphabet (list_byte_of_string txt) = true.
Proof.
  apply (encoded_text_size (demo_env (demo_ok_response [])) "./images/dress.png"
           [] demo_product).
  reflexivity.
Defined.

(** ** How the paths are spelled *)
Module PathSpelling.
Import PurePath PurePathFacts.

Lemma split_app (s t : string) :
  split (s ++ String sep t) = (split s ++ split t)%list.
Proof.
  induction s as [|c s IH]; [reflexivity|].
  cbn [append split]. rewrite IH.
  destruct (Ascii.eqb c sep); [reflexivity|].
  destruct (split s) as [|w ws] eqn:E; [now apply split_nonempty in E|].
  reflexivity.
Qed.

Lemma splitroot_relative (s : string) :
  starts_with_sep s = false -> splitroot s = ("", s).
Proof.
  destruct s as [|c s]; [reflexivity|]. cbn. now intros ->.
Qed.

Lemma Path_dot_slash (d : string) :
  starts_with_sep d = false -> Path ("./" ++ d) = Path d.
Proof.
  intros H. unfold Path. rewrite (splitroot_relative d H).
  change ("./" ++ d) with (String "." (String sep d)).
  rewrite (splitroot_relative (String "." (String sep d)) eq_refl).
  change (String "." (String sep d)) with ("." ++ String sep d).
  rewrite split_app. reflexivity.
Qed.

Lemma Path_trailing_slash (d : string) :
  starts_with_sep d = false -> d <> "" -> Path (d ++ "/") = Path d.
Proof.
  intros H Hne. unfold Path. rewrite (splitroot_relative d H).
  assert (Hr : starts_with_sep (d ++ "/") = false).
  { destruct d; [contradiction | exact H]. }
  rewrite (splitroot_relative _ Hr).
  change "/" with (String sep ""). rewrite split_app, filter_app.
  cbn. now rewrite app_nil_r.
Qed.

Lemma no_sep_head (c : ascii) (s : string) :
  no_sep (String c s) -> Ascii.eqb c sep = false /\ no_sep s.
Proof. unfold no_sep. cbn. intros H. now apply orb_false_iff in H. Qed.

Lemma lstrip_no_sep (f : string) : no_sep f -> lstrip f = f.
Proof.
  destruct f as [|c f]; [reflexivity|].
  intros H. apply no_sep_head in H. destruct H as [Hc _]. cbn. now rewrite Hc.
Qed.

Lemma lstrip_join (s f : string) :
  no_sep f ->
  lstrip (s ++ String sep f) = f
  \/ exists s', lstrip (s ++ String sep f) = s' ++ String sep f.
Proof.
  intros Hf. induction s as [|c s IH].
  - left. change (lstrip ("" ++ String sep f)) with (lstrip f).
    now apply lstrip_no_sep.
  - cbn [append lstrip]. destruct (Ascii.eqb c sep); [exact IH|].
    right. now exists (String c s).
Qed.

Lemma name_of_parts (l : list string) (f : string) :
  keep_part f = true -> last (filter keep_part (l ++ [f])) "" = f.
Proof.
  intros Hk. rewrite filter_app. cbn [filter]. rewrite Hk. apply last_last.
Qed.

(** The name of a path is its last component, whatever comes before. *)
Lemma name_Path_join (dir f : string) :
  no_sep f -> keep_part f = true -> name (Path (dir ++ String sep f)) = f.
Proof.
  intros Hf Hk. unfold name, Path, splitroot.
  destruct (dir ++ String sep f) as [|c w] eqn:Ew.
  { destruct dir; discriminate. }
  destruct (Ascii.eqb c sep).
  - assert (Hl : exists l, split (lstrip (String c w)) = (l ++ [f])%list).
    { rewrite <- Ew. destruct (lstrip_join dir f Hf) as [-> | (s' & ->)].
      - exists []. now apply split_single.
      - exists (split s'). now rewrite split_app, (split_single f Hf). }
    destruct Hl as (l & Hl).
    destruct (_ =? 2)%nat; cbn [parts]; rewrite Hl; now apply name_of_parts.
  - cbn [parts]. rewrite <- Ew, split_app, (split_single f Hf).
    now apply name_of_parts.
Qed.

Lemma name_Path_bare (f : string) :
  no_sep f -> keep_part f = true -> name (Path f) = f.
Proof.
  intros Hf Hk. unfold name, Path.
  assert (Hr : starts_with_sep f = false).
  { destruct f as [|c f]; [reflexivity|]. now apply no_sep_head in Hf. }
  rewrite (splitroot_relative f Hr). cbn [parts].
  rewrite (split_single f Hf). cbn [filter]. now rewrite Hk.
Qed.

Lemma stem_of_name (p q : t) : name p = name q -> stem p = stem q.
Proof. unfold stem. now intros ->. Qed.

Lemma rfind_none (c : ascii) (s : string) :
  rfind c s = None -> contains c s = false.
Proof.
  induction s as [|d s IH]; [reflexivity|].
  cbn. destruct (rfind c s); [discriminate|].
  destruct (Ascii.eqb d c); [discriminate|]. intros _. now rewrite IH.
Qed.

(** Where the last [c] of a string is, and what surrounds it. *)
Lemma rfind_some (c : ascii) (s : string) :
  forall i, rfind c s = Some i ->
  exists pre post,
    s = pre ++ String c post
    /\ String.length pre = i
    /\ contains c post = false
    /\ substring 0 i s = pre.
Proof.
  induction s as [|d s IH]; intros i H; [discriminate|].
  cbn in H. destruct (rfind c s) as [j|] eqn:Ej.
  - injection H as <-. destruct (IH j eq_refl) as (pre & post & -> & Hl & Hc & Hs).
    exists (String d pre), post. cbn. rewrite Hl, Hs. auto.
  - destruct (Ascii.eqb_spec d c) as [->|]; [|discriminate].
    injection H as <-. exists "", s. repeat split; auto using rfind_none.
Qed.

Lemma length_app (s t : string) :
  String.length (s ++ t) = (String.length s + String.length t)%nat.
Proof. induction s as [|c s IH]; cbn; [reflexivity | now rewrite IH]. Qed.

Lemma string_app_nil (s : string) : s ++ "" = s.
Proof. induction s as [|c s IH]; cbn; [reflexivity | now rewrite IH]. Qed.

End PathSpelling.

(** X15. The returned paths are normalised: writing the output directory
    with a leading [./] or, when it is not empty, with a trailing [/]
    changes none of them. *)
Theorem output_dir_spelling (a a' : TryOnArgs) (i : nat) (p : json) :
  person_image_path a' = person_image_path a ->
  product_image_path a' = product_image_path a ->
  PurePath.starts_with_sep (output_dir a) = false ->
  output_dir a' = "./" ++ output_dir a
  \/ (output_dir a <> "" /\ output_dir a' = output_dir a ++ "/") ->
  path_for a' i p = path_for a i p.
Proof.
  intros Hp Hq Hrel Hout. unfold path_for, filepath, filename.
  rewrite Hp, Hq. destruct Hout as [-> | [Hne ->]].
  - now rewrite (PathSpelling.Path_dot_slash _ Hrel).
  - now rewrite (PathSpelling.Path_trailing_slash _ Hrel Hne).
Qed.

Lemma output_dir_spelling_witness :
  path_for main_args 0 (demo_prediction "image/png")
  = path_for (respelled_args "./images/person.png" "./images/dress.png" "results")
      0 (demo_prediction "image/png").
Proof.
  apply (output_dir_spelling
           (respelled_args "./images/person.png" "./images/dress.png" "results")
           main_args 0 (demo_prediction "image/png")).
  - reflexivity.
  - reflexivity.
  - reflexivity.
  - left. reflexivity.
Defined.

(** X16. The name of a saved file depends on the two inputs through
    their file names only: putting a directory, relative or absolute, in
    front of either of them changes no name, so that inputs of the same
    names in different directories are saved under the same names. *)
Theorem input_directory_ignored (a a' : TryOnArgs) (dir1 dir2 : string)
    (i : nat) (ext : string) :
  PurePath.no_sep (person_image_path a) ->
  PurePath.keep_part (person_image_path a) = true ->
  PurePath.no_sep (product_image_path a) ->
  PurePath.keep_part (product_image_path a) = true ->
  person_image_path a' = dir1 ++ "/" ++ person_image_path a ->
  product_image_path a' = dir2 ++ "/" ++ product_image_path a ->
  filename a' i ext = filename a i ext.
Proof.
  intros Hp Kp Hq Kq Ep Eq. unfold filename. rewrite Ep, Eq.
  rewrite (PathSpelling.stem_of_name
             (PurePath.Path (dir1 ++ "/" ++ person_image_path a))
             (PurePath.Path (person_image_path a))).
  2: { change ("/" ++ person_image_path a)
         with (String PurePath.sep (person_image_path a)).
       now rewrite PathSpelling.name_Path_join, PathSpelling.name_Path_bare. }
  rewrite (PathSpelling.stem_of_name
             (PurePath.Path (dir2 ++ "/" ++ product_image_path a))
             (PurePath.Path (product_image_path a))).
  2: { change ("/" ++ product_image_path a)
         with (String PurePath.sep (product_image_path a)).
       now rewrite PathSpelling.name_Path_join, PathSpelling.name_Path_bare. }
  reflexivity.
Qed.

Lemma input_directory_ignored_witness :
  filename (respelled_args "./images/person.png" "/srv/data/dress.png" "./results")
    0 ".png"
  = filename (respelled_args "person.png" "dress.png" "./results") 0 ".png".
Proof.
  apply (input_directory_ignored
           (respelled_args "person.png" "dress.png" "./results")
           (respelled_args "./images/person.png" "/srv/data/dress.png" "./results")
           "./images" "/srv/data" 0 ".png").
  - reflexivity.
  - reflexivity.
  - reflexivity.
  - reflexivity.
  - reflexivity.
  - reflexivity.
Defined.

Lemma contains_false_rfind (c : ascii) (s : string) :
  PurePath.contains c s = false -> PurePath.rfind c s = None.
Proof.
  induction s as [|d s IH]; [reflexivity|].
  cbn. intros H. apply orb_false_iff in H. destruct H as [Hd Hs].
  now rewrite (IH Hs), Hd.
Qed.

(** The last [c] of a string that has no [c] after it. *)
Lemma rfind_last (c : ascii) (pre post : string) :
  PurePath.contains c post = false ->
  PurePath.rfind c (pre ++ String c post) = Some (String.length pre).
Proof.
  intros H. induction pre as [|d pre IH].
  - cbn. now rewrite (contains_false_rfind c post H), Ascii.eqb_refl.
  - cbn [append PurePath.rfind String.length]. now rewrite IH.
Qed.

Lemma substring_prefix (pre x : string) :
  substring 0 (String.length pre) (pre ++ x) = pre.
Proof.
  induction pre as [|d pre IH]; cbn.
  - now destruct x.
  - now rewrite IH.
Qed.

(** X17. The stem that goes into a file name is the last component of
    the input path without its last suffix, and exactly that: when the
    component is [pre.post] with [pre] and [post] not empty and no dot in
    [post], the stem is [pre]; when the component has no dot, or its only
    dot is its first character, or it ends with a dot, the stem is the
    whole component. *)
Theorem stem_drops_last_suffix (s : string) :
  (forall pre post,
     PurePath.name (PurePath.Path s) = pre ++ String "." post ->
     pre <> "" -> post <> "" -> PurePath.contains "." post = false ->
     PurePath.stem (PurePath.Path s) = pre)
  /\ (PurePath.contains "." (PurePath.name (PurePath.Path s)) = false ->
      PurePath.stem (PurePath.Path s) = PurePath.name (PurePath.Path s))
  /\ (forall post,
        PurePath.name (PurePath.Path s) = String "." post ->
        PurePath.contains "." post = false ->
        PurePath.stem (PurePath.Path s) = PurePath.name (PurePath.Path s))
  /\ (forall pre,
        PurePath.name (PurePath.Path s) = pre ++ "." ->
        PurePath.stem (PurePath.Path s) = PurePath.name (PurePath.Path s)).
Proof.
  unfold PurePath.stem. set (nm := PurePath.name (PurePath.Path s)).
  split; [|split; [|split]].
  - intros pre post Hn Hpre Hpost Hc.
    rewrite Hn, (rfind_last "." pre post Hc), PathSpelling.length_app.
    assert (H0 : (0 <? String.length pre)%nat = true).
    { apply Nat.ltb_lt. destruct pre; [contradiction | cbn; lia]. }
    assert (H1 : (String.length pre
                  <? String.length pre + String.length (String "." post) - 1)%nat
                 = true).
    { apply Nat.ltb_lt. destruct post; [contradiction | cbn; lia]. }
    rewrite H0, H1. apply substring_prefix.
  - intros Hc. now rewrite (contains_false_rfind "." nm Hc).
  - intros post Hn Hc. rewrite Hn.
    change (String "." post) with ("" ++ String "." post).
    now rewrite (rfind_last "." "" post Hc).
  - intros pre Hn. rewrite Hn.
    change "." with (String "." "").
    rewrite (rfind_last "." pre "" eq_refl), PathSpelling.length_app.
    assert (H1 : (String.length pre
                  <? String.length pre + String.length (String "." "") - 1)%nat
                 = false).
    { apply Nat.ltb_ge. cbn. lia. }
    rewrite H1, andb_false_r. reflexivity.
Qed.

Lemma stem_drops_last_suffix_witness :
  PurePath.stem (PurePath.Path "in/archive.tar.gz") = "archive.tar".
Proof.
  apply (proj1 (stem_drops_last_suffix "in/archive.tar.gz") "archive.tar" "gz").
  - reflexivity.
  - discriminate.
  - discriminate.
  - reflexivity.
Defined.

Example stems_of_names :
  PurePath.stem (PurePath.Path "in/archive.tar.gz") = "archive.tar"
  /\ PurePath.stem (PurePath.Path "in/.hidden") = ".hidden"
  /\ PurePath.stem (PurePath.Path "in/name.") = "name."
  /\ PurePath.stem (PurePath.Path "in/photo.jpeg") = "photo".
Proof. repeat split; reflexivity. Qed.

(** ** The client as [__init__] makes it, and the script *)

Lemma init_run (E : Env) (loc : string) (h : Trace) :
  init E loc h
  = match google_auth_default E h with
    | Ok cp =>
        (Ok (mk_api (fst cp) (snd cp) loc "virtual-try-on-preview-08-04"
               (regional_endpoint loc (snd cp))),
         (h ++ [EvPrint ("使用中のプロジェクトID: " ++ str_opt (snd cp))])%list)
    | Raise e => (Raise e, h)
    end.
Proof.
  unfold init, bind, print, act, ret.
  destruct (google_auth_default E h) as [cp|e]; reflexivity.
Qed.



(** The lines a round of the loop prints. *)
Lemma save_prediction_lines (E : Env) (a : TryOnArgs) (i : nat) (p : json)
    (h : Trace) (r : Res string) (h' : Trace) :
  save_prediction E a i p h = (r, h') ->
  exists new, h' = (h ++ new)%list /\ Forall loop_line (printed new).
Proof.
  unfold save_prediction, print, bind, lift, act, ret. intros H.
  run_cases H; injection H as <- <-;
    repeat match goal with
           | E : (_, _) = (_, _) |- _ => injection E as <- <-
           end;
    rewrite <- ?app_assoc;
    first [ exists []; split; [now rewrite app_nil_r | constructor]
          | eexists; split;
            [reflexivity | cbn; repeat constructor; eexists; reflexivity] ].
Qed.

Lemma save_loop_lines (E : Env) (a : TryOnArgs) (preds : list json) :
  forall (i : nat) (saved : list string) (h : Trace) r h',
  save_loop E a i preds saved h = (r, h') ->
  exists new, h' = (h ++ new)%list /\ Forall loop_line (printed new).
Proof.
  induction preds as [|p preds IH]; intros i saved h r h' H.
  - cbn in H. injection H as <- <-. exists []. split; [now rewrite app_nil_r | constructor].
  - cbn [save_loop] in H. unfold bind in H.
    destruct (save_prediction E a i p h) as [[path|e] h1] eqn:Hp.
    + apply save_prediction_lines in Hp. destruct Hp as (n1 & -> & F1).
      apply IH in H. destruct H as (n2 & -> & F2).
      exists (n1 ++ n2)%list. split; [now rewrite app_assoc|].
      rewrite printed_app. now apply Forall_app.
    + injection H as <- <-. now apply save_prediction_lines in Hp.
Qed.

Lemma handle_response_lines (E : Env) (a : TryOnArgs) (response : Response)
    (h : Trace) r h' :
  handle_response E a response h = (r, h') ->
  exists new, h' = (h ++ new)%list /\ Forall loop_line (printed new).
Proof.
  unfold handle_response, raise, bind, lift, act. intros H.
  destruct (negb (status_code response =? 200)%Z).
  { injection H as <- <-. no_new_events. }
  destruct (json_ response) as [result|e].
  2: { injection H as <- <-. no_new_events. }
  destruct (os_makedirs E _ (output_dir a)).
  2: { injection H as <- <-. eexists. split; [reflexivity | constructor]. }
  destruct (py_get result "predictions" (JArr [])) as [predictions|e].
  2: { injection H as <- <-. eexists. split; [reflexivity | constructor]. }
  destruct (py_iter predictions) as [items|e].
  2: { injection H as <- <-. eexists. split; [reflexivity | constructor]. }
  apply save_loop_lines in H. destruct H as (new & -> & F).
  exists (EvMakedirs (output_dir a) :: new). split; [now rewrite <- app_assoc | exact F].
Qed.

(** The lines a call prints: the progress line, then lines of the loop. *)
Lemma try_on_lines (E : Env) (self : VirtualTryOnAPI) (a : TryOnArgs)
    (h : Trace) r h' :
  try_on E self a h = (r, h') ->
  exists new,
    h' = (h ++ new)%list
    /\ Forall (fun msg => msg = progress_message a \/ loop_line msg) (printed new).
Proof.
  unfold try_on, bind, ask. cbv beta iota. intros H.
  destruct (os_path_exists E h (person_image_path a)); cbv beta iota delta [negb] in H.
  2: { injection H as <- <-. no_new_events. }
  destruct (os_path_exists E h (product_image_path a)); cbv beta iota delta [negb] in H.
  2: { injection H as <- <-. no_new_events. }
  destruct (encode_image E (person_image_path a) h) as [[p|e] h1] eqn:He1;
    apply encode_image_trace in He1; subst h1.
  2: { injection H as <- <-. no_new_events. }
  destruct (encode_image E (product_image_path a) h) as [[q|e] h1] eqn:He2;
    apply encode_image_trace in He2; subst h1.
  2: { injection H as <- <-. no_new_events. }
  unfold lift in H.
  destruct (request_body a p q) as [body|e] eqn:Hb.
  2: { injection H as <- <-. no_new_events. }
  unfold print, act in H. cbv beta iota in H.
  destruct (session_post E _ (credentials self) (endpoint self) body) as [response|e].
  2: { injection H as <- <-. rewrite <- app_assoc. eexists. split; [reflexivity|].
       cbn. repeat constructor. }
  apply handle_response_lines in H. destruct H as (new & -> & F).
  exists (EvPrint (progress_message a) :: EvPost (endpoint self) body :: new).
  split; [now rewrite <- !app_assoc|].
  cbn. constructor; [now left|].
  eapply Forall_impl; [|exact F]. intros msg Hm. now right.
Qed.

Lemma completion_line_is_new (a : TryOnArgs) (msgs : list string) :
  Forall (fun msg => msg = progress_message a \/ loop_line msg) msgs ->
  ~ In completion_line msgs.
Proof.
  intros F Hin. rewrite Forall_forall in F.
  destruct (F _ Hin) as [H | (path & H)]; discriminate H.
Qed.

(** What [main] does, step by step. *)
Lemma main_run (E : Env) (h : Trace) :
  main E h
  = match init E "us-central1" h with
    | (Ok api, h1) =>
        match try_on E api main_args h1 with
        | (Ok _, h2) => (Ok tt, (h2 ++ [EvPrint completion_line])%list)
        | (Raise e, h2) => (Raise e, h2)
        end
    | (Raise e, h1) => (Raise e, h1)
    end.
Proof.
  unfold main, bind, print, act.
  destruct (init E "us-central1" h) as [[api|e] h1]; [|reflexivity].
  destruct (try_on E api main_args h1) as [[paths|e] h2]; reflexivity.
Qed.

Lemma main_args_body (p q : string) (body : json) :
  request_body main_args p q = Ok body ->
  json_lookup ["parameters"; "seed"] body = Some (JInt 42)
  /\ json_lookup ["parameters"; "sampleCount"] body = Some (JInt 1)
  /\ json_lookup ["parameters"; "baseSteps"] body = Some (JInt 32)
  /\ json_lookup ["parameters"; "addWatermark"] body = Some (JBool false)
  /\ json_lookup ["parameters"; "outputOptions"; "mimeType"] body
     = Some (JStr "image/png")
  /\ mentions_key "compressionQuality" body = false.
Proof. cbn. intros [= <-]. repeat split; reflexivity. Qed.

(** What a run of [main] adds to the trace, in terms of the call it makes. *)
Lemma main_trace (E : Env) (h : Trace) (r : Res unit) (h' : Trace) :
  main E h = (r, h') ->
  (h' = h /\ exists e, r = Raise e /\ google_auth_default E h = Raise e)
  \/ exists c project self r1 nt,
       google_auth_default E h = Ok (c, project)
       /\ self = mk_api c project "us-central1" "virtual-try-on-preview-08-04"
                   (regional_endpoint "us-central1" project)
       /\ try_on E self main_args
            (h ++ [EvPrint ("使用中のプロジェクトID: " ++ str_opt project)])%list
          = (r1, ((h ++ [EvPrint ("使用中のプロジェクトID: " ++ str_opt project)])
                  ++ nt)%list)
       /\ Forall (fun msg => msg = progress_message main_args \/ loop_line msg)
            (printed nt)
       /\ ((exists paths, r1 = Ok paths /\ r = Ok tt
            /\ h' = (h ++ EvPrint ("使用中のプロジェクトID: " ++ str_opt project)
                       :: nt ++ [EvPrint completion_line])%list)
           \/ (exists e, r1 = Raise e /\ r = Raise e
               /\ h' = (h ++ EvPrint ("使用中のプロジェクトID: " ++ str_opt project)
                          :: nt)%list)).
Proof.
  rewrite main_run, init_run. intros H.
  destruct (google_auth_default E h) as [[c project]|e].
  2: { injection H as <- <-. left. eauto. }
  right. cbn [fst snd] in H.
  destruct (try_on E _ main_args _) as [r1 h2] eqn:Ht.
  destruct (try_on_lines _ _ _ _ _ _ Ht) as (nt & -> & F).
  exists c, project,
    (mk_api c project "us-central1" "virtual-try-on-preview-08-04"
       (regional_endpoint "us-central1" project)), r1, nt.
  split; [reflexivity|]. split; [reflexivity|].
  split; [exact Ht|]. split; [exact F|].
  destruct r1 as [paths|e]; injection H as <- <-.
  - left. exists paths. rewrite <- !app_assoc. auto.
  - right. exists e. rewrite <- !app_assoc. auto.
Qed.

(** X19. Run as a script, the program posts at most one request, to the
    endpoint of [us-central1], and that request asks for one PNG image in
    32 steps with seed 42 and no watermark, and names no compression
    quality, whatever the world answers. *)
Theorem main_request (E : Env) (h : Trace) (r : Res unit) (new : Trace)
    (url : string) (body : json) :
  main E h = (r, (h ++ new)%list) ->
  In (url, body) (posts new) ->
  posts new = [(url, body)]
  /\ (exists project, url = regional_endpoint "us-central1" project)
  /\ json_lookup ["parameters"; "seed"] body = Some (JInt 42)
  /\ json_lookup ["parameters"; "sampleCount"] body = Some (JInt 1)
  /\ json_lookup ["parameters"; "baseSteps"] body = Some (JInt 32)
  /\ json_lookup ["parameters"; "addWatermark"] body = Some (JBool false)
  /\ json_lookup ["parameters"; "outputOptions"; "mimeType"] body
     = Some (JStr "image/png")
  /\ mentions_key "compressionQuality" body = false.
Proof.
  intros H Hin. apply main_trace in H.
  destruct H as [(Heq & _) | (c & project & self & r1 & nt & _ & Hself & Ht & _ & Hend)].
  - rewrite <- (app_nil_r h) in Heq at 2. apply app_inv_head in Heq. subst new.
    destruct Hin.
  - assert (Hp : posts new = posts nt).
    { destruct Hend as [(paths & _ & _ & Heq) | (e & _ & _ & Heq)];
        apply app_inv_head in Heq; subst new; cbn [posts].
      - rewrite posts_app. cbn. now rewrite app_nil_r.
      - reflexivity. }
    rewrite Hp in *.
    destruct (try_on_posts _ _ _ _ _ _ Ht) as (nt' & Heq & Hposts).
    apply app_inv_head in Heq. subst nt'.
    destruct Hposts as [Hn | (p & q & body' & Hb & Hn)]; rewrite Hn in *.
    + destruct Hin.
    + destruct Hin as [Hin | []]. injection Hin as <- <-.
      split; [reflexivity|]. split.
      * exists project. rewrite Hself. reflexivity.
      * exact (main_args_body p q body' Hb).
Qed.

Lemma main_request_witness :
  posts (snd (main (demo_env (demo_ok_response [])) []))
  = [(regional_endpoint "us-central1" (Some "demo-project"), demo_body main_args)]
  /\ (exists project,
        regional_endpoint "us-central1" (Some "demo-project")
        = regional_endpoint "us-central1" project)
  /\ json_lookup ["parameters"; "seed"] (demo_body main_args) = Some (JInt 42)
  /\ json_lookup ["parameters"; "sampleCount"] (demo_body main_args) = Some (JInt 1)
  /\ json_lookup ["parameters"; "baseSteps"] (demo_body main_args) = Some (JInt 32)
  /\ json_lookup ["parameters"; "addWatermark"] (demo_body main_args)
     = Some (JBool false)
  /\ json_lookup ["parameters"; "outputOptions"; "mimeType"] (demo_body main_args)
     = Some (JStr "image/png")
  /\ mentions_key "compressionQuality" (demo_body main_args) = false.
Proof.
  apply (main_request (demo_env (demo_ok_response [])) []
           (fst (main (demo_env (demo_ok_response [])) []))
           (snd (main (demo_env (demo_ok_response [])) []))
           (regional_endpoint "us-central1" (Some "demo-project"))
           (demo_body main_args)).
  - vm_compute. reflexivity.
  - vm_compute. left. reflexivity.
Defined.

(** X20. The [__main__] block prints its completion line exactly when
    [__init__] has made the client and [try_on] on it has returned, and
    then as the last thing, after all that [try_on] did; when [__init__]
    raises, or [try_on] raises, the block raises the same exception with
    the trace they left and the line is not printed. *)
Theorem main_completion_line (E : Env) (h : Trace) (r : Res unit) (new : Trace) :
  main E h = (r, (h ++ new)%list) ->
  match init E "us-central1" h with
  | (Raise e, h1) =>
      r = Raise e /\ (h ++ new)%list = h1
      /\ ~ In completion_line (printed new)
  | (Ok api, h1) =>
      match try_on E api main_args h1 with
      | (Ok paths, h2) =>
          r = Ok tt
          /\ (h ++ new)%list = (h2 ++ [EvPrint completion_line])%list
          /\ In completion_line (printed new)
      | (Raise e, h2) =>
          r = Raise e /\ (h ++ new)%list = h2
          /\ ~ In completion_line (printed new)
      end
  end.
Proof.
  intros H. rewrite main_run in H.
  destruct (init E "us-central1" h) as [[api|e] h1] eqn:Hi.
  - rewrite init_run in Hi.
    destruct (google_auth_default E h) as [cp|e0]; [|discriminate].
    injection Hi as <- <-.
    destruct (try_on E _ main_args _) as [[paths|e] h2] eqn:Ht;
      destruct (try_on_lines _ _ _ _ _ _ Ht) as (nt & -> & F);
      injection H as <- Hh; rewrite <- Hh.
    + split; [reflexivity|]. split; [reflexivity|].
      rewrite <- !app_assoc in Hh. apply app_inv_head in Hh. subst new.
      cbn [app printed]. right. rewrite printed_app.
      apply in_or_app. right. now left.
    + split; [reflexivity|]. split; [reflexivity|].
      rewrite <- !app_assoc in Hh. apply app_inv_head in Hh. subst new.
      cbn [app printed]. intros [Hin | Hin]; [discriminate Hin|].
      exact (completion_line_is_new main_args _ F Hin).
  - rewrite init_run in Hi.
    destruct (google_auth_default E h) as [cp|e0]; [discriminate|].
    injection Hi as <- <-. injection H as <- Hh.
    split; [reflexivity|]. split; [now rewrite <- Hh|].
    rewrite <- (app_nil_r h) in Hh at 1. apply app_inv_head in Hh. subst new.
    intros [].
Qed.

Lemma main_completion_line_witness :
  fst (main (demo_env (Ok (ok_response [demo_prediction "image/png"]))) []) = Ok tt
  /\ ([] ++ snd (main (demo_env (Ok (ok_response [demo_prediction "image/png"]))) []))%list
     = (snd (try_on (demo_env (Ok (ok_response [demo_prediction "image/png"])))
               demo_api main_args [EvPrint "使用中のプロジェクトID: demo-project"])
        ++ [EvPrint completion_line])%list
  /\ In completion_line
       (printed (snd (main (demo_env (Ok (ok_response [demo_prediction "image/png"]))) []))).
Proof.
  exact (main_completion_line
           (demo_env (Ok (ok_response [demo_prediction "image/png"]))) []
           (fst (main (demo_env (Ok (ok_response [demo_prediction "image/png"]))) []))
           (snd (main (demo_env (Ok (ok_response [demo_prediction "image/png"]))) []))
           eq_refl).
Defined.

(** X21. When [google.auth.default] raises, [__init__] raises that
    exception and has printed nothing, and the [__main__] block raises it
    too: its trace is unchanged, so it has printed nothing, posted
    nothing, created no directory and saved no file. *)
Theorem main_without_credentials (E : Env) (h : Trace) (e : PyExc) :
  google_auth_default E h = Raise e ->
  main E h = (Raise e, h)
  /\ forall loc, init E loc h = (Raise e, h).
Proof.
  intros H. split.
  - rewrite main_run, init_run, H. reflexivity.
  - intros loc. rewrite init_run, H. reflexivity.
Qed.

Lemma main_without_credentials_witness :
  main (fixed_env (Raise (ExternalError "DefaultCredentialsError")) demo_read
          (Ok (ok_response [])) (Ok tt) (fun data => Ok (mk_image data)) (Ok tt)) []
  = (Raise (ExternalError "DefaultCredentialsError"), [])
  /\ forall loc,
       init (fixed_env (Raise (ExternalError "DefaultCredentialsError")) demo_read
               (Ok (ok_response [])) (Ok tt) (fun data => Ok (mk_image data)) (Ok tt))
         loc []
       = (Raise (ExternalError "DefaultCredentialsError"), []).
Proof.
  apply (main_without_credentials
           (fixed_env (Raise (ExternalError "DefaultCredentialsError")) demo_read
              (Ok (ok_response [])) (Ok tt) (fun data => Ok (mk_image data)) (Ok tt))
           [] (ExternalError "DefaultCredentialsError")).
  reflexivity.
Defined.

(** ** The files of one call *)

Lemma str_int_inj (z1 z2 : Z) : str_int z1 = str_int z2 -> z1 = z2.
Proof.
  unfold str_int. intros H.
  assert (Hn : forall z, Z.to_int z <> Decimal.Pos Decimal.Nil
                         /\ Z.to_int z <> Decimal.Neg Decimal.Nil).
  { intros [|p|p]; cbn; split; try discriminate;
      intros [= Hp]; now apply DecimalPos.Unsigned.to_uint_nonnil in Hp. }
  apply DecimalZ.to_int_inj.
  assert (Hs : Some (Z.to_int z1) = Some (Z.to_int z2)).
  { rewrite <- (NilZero.isi (Z.to_int z1)), <- (NilZero.isi (Z.to_int z2));
      try apply Hn. now rewrite H. }
  now injection Hs.
Qed.

Lemma string_app_inv_head (s x y : string) : s ++ x = s ++ y -> x = y.
Proof. induction s as [|c s IH]; cbn; [auto | intros [= H]; auto]. Qed.

Lemma string_app_inv_tail (x : string) :
  forall y e e',
  x ++ e = y ++ e' -> String.length e = String.length e' -> x = y /\ e = e'.
Proof.
  induction x as [|c x IH]; intros y e e' H Hl.
  - destruct y as [|d y]; [auto|].
    cbn in H. subst e. cbn in Hl. rewrite PathSpelling.length_app in Hl. lia.
  - destruct y as [|d y].
    + cbn in H. subst e'. cbn in Hl. rewrite PathSpelling.length_app in Hl. lia.
    + cbn in H. injection H as -> H. destruct (IH _ _ _ H Hl) as [-> ->]. auto.
Qed.

Lemma extension_for_length (p : json) : String.length (extension_for p) = 4%nat.
Proof. destruct (extension_for_cases p) as [-> | ->]; reflexivity. Qed.

(** File names of different indices differ. *)
Lemma filename_inj (a : TryOnArgs) (i j : nat) (p q : json) :
  filename a i (extension_for p) = filename a j (extension_for q) -> i = j.
Proof.
  unfold filename. intros H.
  apply string_app_inv_head in H. apply string_app_inv_head in H.
  apply string_app_inv_head in H.
  apply string_app_inv_tail in H.
  - destruct H as [H _]. apply str_int_inj in H. lia.
  - now rewrite !extension_for_length.
Qed.

Lemma join_snoc_prefix (l : list string) (x : string) :
  PurePath.join (l ++ [x]) = PurePath.join_prefix l ++ x.
Proof.
  induction l as [|p l IH]; [reflexivity|].
  change (PurePath.join ((p :: l) ++ [x]))
    with (PurePath.join (p :: (l ++ [x])%list)).
  destruct (l ++ [x])%list as [|y ys] eqn:E.
  - destruct l; discriminate.
  - change (PurePath.join (p :: y :: ys))
      with (p ++ String PurePath.sep (PurePath.join (y :: ys))).
    rewrite IH. cbn [PurePath.join_prefix].
    now rewrite PurePathFacts.string_app_assoc.
Qed.

(** Every saved path is the directory part, then the file name. *)
Lemma path_for_split (a : TryOnArgs) (i : nat) (p : json) :
  path_for a i p = save_dir a ++ filename a i (extension_for p).
Proof.
  unfold path_for, save_dir.
  rewrite (PurePathFacts.filepath_parts a i _ (extension_for_no_sep p)).
  unfold PurePath.str. cbn [PurePath.root PurePath.parts].
  rewrite join_snoc_prefix, <- PurePathFacts.string_app_assoc.
  destruct (PurePathFacts.filename_head a i (extension_for p)) as (rest & -> & _).
  now rewrite PurePathFacts.string_app_not_empty.
Qed.

Lemma path_for_inj (a : TryOnArgs) (i j : nat) (p q : json) :
  path_for a i p = path_for a j q -> i = j.
Proof.
  rewrite !path_for_split. intros H.
  apply string_app_inv_head in H. now apply filename_inj in H.
Qed.

Lemma paths_from_index (a : TryOnArgs) (l : list json) :
  forall k x, In x (paths_from a k l) ->
  exists j p, (k <= j)%nat /\ x = path_for a j p.
Proof.
  induction l as [|p l IH]; intros k x H; [destruct H|].
  destruct H as [<- | H].
  - exists k, p. auto.
  - destruct (IH _ _ H) as (j & q & Hj & ->). exists j, q. split; [lia | reflexivity].
Qed.

Lemma paths_from_NoDup (a : TryOnArgs) (l : list json) :
  forall k, NoDup (paths_from a k l).
Proof.
  induction l as [|p l IH]; intros k; cbn; constructor; [|apply IH].
  intros H. destruct (paths_from_index a l _ _ H) as (j & q & Hj & Heq).
  apply path_for_inj in Heq. lia.
Qed.

(** X22. The files one call saves all have different paths: no image of
    a response overwrites another image of the same response. *)
Theorem saved_paths_distinct (E : Env) (self : VirtualTryOnAPI) (a : TryOnArgs)
    (h : Trace) (r : Res (list string)) (new : Trace) :
  try_on E self a h = (r, (h ++ new)%list) ->
  NoDup (saved_files new)
  /\ forall paths, r = Ok paths -> NoDup paths.
Proof.
  intros H. split.
  - apply try_on_saved in H. destruct H as (new' & items & k & Heq & S).
    apply app_inv_head in Heq. subst new'. rewrite S. apply paths_from_NoDup.
  - intros paths ->.
    destruct (try_on_returned E self a h paths new H) as (_ & _ & <- & _).
    apply try_on_saved in H. destruct H as (new' & items & k & Heq & S).
    apply app_inv_head in Heq. subst new'. rewrite S. apply paths_from_NoDup.
Qed.

Lemma saved_paths_distinct_witness :
  NoDup (saved_files
           (snd (try_on (demo_env (Ok (ok_response
                           [demo_prediction "image/png"; demo_prediction "image/png"])))
                   demo_api main_args [])))
  /\ forall paths,
       fst (try_on (demo_env (Ok (ok_response
                      [demo_prediction "image/png"; demo_prediction "image/png"])))
              demo_api main_args [])
       = Ok paths ->
       NoDup paths.
Proof.
  apply (saved_paths_distinct
           (demo_env (Ok (ok_response
              [demo_prediction "image/png"; demo_prediction "image/png"])))
           demo_api main_args []
           (fst (try_on (demo_env (Ok (ok_response
                           [demo_prediction "image/png"; demo_prediction "image/png"])))
                   demo_api main_args []))
           (snd (try_on (demo_env (Ok (ok_response
                           [demo_prediction "image/png"; demo_prediction "image/png"])))
                   demo_api main_args []))).
  vm_compute. reflexivity.
Defined.

(** X23. When saving the first image raises, the exception reaches the
    caller: the save has been tried once, its line is not printed, no
    path is returned and the remaining predictions are not looked at. *)
Theorem save_failure_propagates (E : Env) (self : VirtualTryOnAPI)
    (a : TryOnArgs) (h : Trace) (body : json) (response : Response) (h1 : Trace)
    (d dp : list (string * json)) (rest : list json) (s : string) (data : bytes)
    (img : Image) (e : PyExc) :
  answered E self a h body response h1 ->
  status_code response = 200%Z ->
  json_ response = Ok (JObj d) ->
  dict_get "predictions" d = Some (JArr (JObj dp :: rest)) ->
  os_makedirs E (h1 ++ [EvMakedirs (output_dir a)])%list (output_dir a) = Ok tt ->
  dict_get "bytesBase64Encoded" dp = Some (JStr s) ->
  Base64.b64decode s = Ok data ->
  Image_open E data = Ok img ->
  Image_save E
    (h1 ++ [EvMakedirs (output_dir a); EvSave (path_for a 0 (JObj dp)) img])%list
    img (path_for a 0 (JObj dp)) = Raise e ->
  let new := [EvPrint (progress_message a); EvPost (endpoint self) body;
              EvMakedirs (output_dir a); EvSave (path_for a 0 (JObj dp)) img] in
  try_on E self a h = (Raise e, (h ++ new)%list)
  /\ printed new = [progress_message a].
Proof.
  intros Ha Hs Hj Hd Hm Hb64 Hdec Hopen Hsave new. split; [|reflexivity].
  rewrite (try_on_answered _ _ _ _ _ _ _ Ha).
  destruct Ha as (d1 & d2 & _ & _ & _ & _ & _ & Hh & _).
  unfold handle_response, raise, bind, lift, act.
  rewrite Hs, Hj. cbn [Z.eqb Pos.eqb negb]. rewrite Hm.
  cbn [py_get]. rewrite Hd. cbn [py_iter save_loop].
  unfold bind, save_prediction, bind, lift, act.
  cbn [py_getitem]. rewrite Hb64. cbn [py_b64decode]. rewrite Hdec, Hopen.
  destruct (ext_of_mime dp) as (m & Hmime & Hext). rewrite Hmime, Hext.
  fold (path_for a 0 (JObj dp)). rewrite <- !app_assoc. cbn [app].
  rewrite Hsave, Hh, <- app_assoc. reflexivity.
Qed.

Lemma save_failure_propagates_witness :
  let new := [EvPrint (progress_message main_args);
              EvPost (endpoint demo_api) (demo_body main_args);
              EvMakedirs (output_dir main_args);
              EvSave (path_for main_args 0 (demo_prediction "image/png"))
                (mk_image (list_byte_of_string "hello"))] in
  try_on (fixed_env demo_auth demo_read
            (Ok (ok_response [demo_prediction "image/png"; demo_prediction "image/jpeg"]))
            (Ok tt) (fun data => Ok (mk_image data))
            (Raise (ExternalError "OSError")))
    demo_api main_args []
  = (Raise (ExternalError "OSError"), ([] ++ new)%list)
  /\ printed new = [progress_message main_args].
Proof.
  apply (save_failure_propagates
           (fixed_env demo_auth demo_read
              (Ok (ok_response
                     [demo_prediction "image/png"; demo_prediction "image/jpeg"]))
              (Ok tt) (fun data => Ok (mk_image data))
              (Raise (ExternalError "OSError")))
           demo_api main_args [] (demo_body main_args)
           (ok_response [demo_prediction "image/png"; demo_prediction "image/jpeg"])
           (demo_sent main_args)
           [("predictions",
             JArr [demo_prediction "image/png"; demo_prediction "image/jpeg"])]
           [("bytesBase64Encoded", JStr "aGVsbG8="); ("mimeType", JStr "image/png")]
           [demo_prediction "image/jpeg"] "aGVsbG8=" (list_byte_of_string "hello")
           (mk_image (list_byte_of_string "hello")) (ExternalError "OSError")).
  - apply fixed_answered; reflexivity.
  - reflexivity.
  - reflexivity.
  - reflexivity.
  - reflexivity.
  - reflexivity.
  - reflexivity.
  - reflexivity.
  - reflexivity.
Defined.
